(** * SPI NOR flash driver (drivers/mtd/nor/spi_nor.c)

    A shallow embedding of the driver: the device descriptor [nor_dev] and
    the SPI transport are threaded explicitly through every function as a
    [state]; every bus transaction, timer test and delay is appended to a
    log so that statements about what the driver issues, and in which
    order, can be made. *)

From Stdlib Require Import ZArith List Bool Lia.
Import ListNotations.
Open Scope Z_scope.

(** ** Machine integers *)

(** Conversion to an unsigned integer type of [bits] bits. *)
Definition wrap (bits x : Z) : Z := x mod 2 ^ bits.

Definition u8 : Z -> Z := wrap 8.
Definition u16 : Z -> Z := wrap 16.
Definition u32 : Z -> Z := wrap 32.
Definition u64 : Z -> Z := wrap 64.

Definition BIT (n : Z) : Z := Z.shiftl 1 n.

Notation "x !=? y" := (negb (Z.eqb x y)) (at level 70, no associativity).

(** ** Constants of spi_nor.c *)

Definition SR_WIP : Z := BIT 0.
Definition CR_QUAD_EN_SPAN : Z := BIT 1.
Definition SR_QUAD_EN_MX : Z := BIT 6.
Definition FSR_READY : Z := BIT 7.

Definition SPANSION_ID : Z := 0x01.
Definition MACRONIX_ID : Z := 0xC2.
Definition MICRON_ID : Z := 0x2C.

Definition BANK_SIZE : Z := 0x1000000.

Definition SPI_READY_TIMEOUT_US : Z := 40000.
Definition SPI_NOR_SRST_US : Z := 100.

(** ** Declarations of the included headers

    drivers/spi_nor.h, drivers/spi_mem.h and errno.h are not part of the
    verified sources: the values of their macros, and the width of
    [size_t], are taken as parameters. *)

Record headers : Type := {
  SPI_NOR_OP_WREN : Z;
  SPI_NOR_OP_WRSR : Z;
  SPI_NOR_OP_READ_ID : Z;
  SPI_NOR_OP_READ_CR : Z;
  SPI_NOR_OP_READ_SR : Z;
  SPI_NOR_OP_READ_FSR : Z;
  SPI_NOR_OP_READ : Z;
  SPI_NOR_OP_WR_CR2 : Z;
  SPI_NOR_OP_SRSTEN : Z;
  SPI_NOR_OP_SRST : Z;
  SPINOR_OP_RDEAR : Z;
  SPINOR_OP_WREAR : Z;
  SPINOR_OP_BRWR : Z;
  SPINOR_OP_BRRD : Z;
  SPI_NOR_REG_MXIC_CR2_MODE : Z;
  SPI_NOR_REG_MXIC_CR2_DC : Z;
  SPI_NOR_REG_MXIC_OPI_DTR_EN : Z;
  SPI_NOR_REG_MXIC_DC_20 : Z;
  SPI_NOR_USE_FSR : Z;
  SPI_NOR_USE_BANK : Z;
  SPI_MEM_BUSWIDTH_1_LINE : Z;
  SPI_MEM_BUSWIDTH_8_LINE : Z;
  EINVAL : Z;
  ETIMEDOUT : Z;
  EOPNOTSUPP : Z;
  size_t_bits : Z
}.

(** ** Operation descriptor (struct spi_mem_op)

    The command opcode is a 16-bit field, the byte counts and bus widths
    of the command, address and dummy phases are 8-bit fields, the
    address value is a 64-bit field and the data byte count an unsigned
    int; an integer field is a [Z] and every assignment that can leave
    the range of its field is written with the conversion it makes. *)

Inductive spi_mem_data_dir : Type :=
| SPI_MEM_DATA_IN
| SPI_MEM_DATA_OUT.

(** A data buffer pointer: NULL, the address of a driver variable (shown
    by the bytes it holds when the operation is issued) or an address in
    the caller's memory. *)
Inductive data_ptr : Type :=
| NullBuf
| Local (bytes : list Z)
| Addr (a : Z).

Record op_cmd : Type := {
  cmd_nbytes : Z;
  cmd_buswidth : Z;
  cmd_dtr : bool;
  cmd_opcode : Z
}.

Record op_addr : Type := {
  addr_nbytes : Z;
  addr_buswidth : Z;
  addr_dtr : bool;
  addr_val : Z
}.

Record op_dummy : Type := {
  dummy_nbytes : Z;
  dummy_buswidth : Z;
  dummy_dtr : bool
}.

Record op_data : Type := {
  data_buswidth : Z;
  data_dtr : bool;
  data_dir : spi_mem_data_dir;
  data_nbytes : Z;
  data_buf : data_ptr
}.

Record spi_mem_op : Type := {
  cmd : op_cmd;
  addr : op_addr;
  dummy : op_dummy;
  data : op_data
}.

(** The descriptor left by [zeromem]. *)
Definition zero_cmd : op_cmd :=
  {| cmd_nbytes := 0; cmd_buswidth := 0; cmd_dtr := false; cmd_opcode := 0 |}.
Definition zero_addr : op_addr :=
  {| addr_nbytes := 0; addr_buswidth := 0; addr_dtr := false; addr_val := 0 |}.
Definition zero_dummy : op_dummy :=
  {| dummy_nbytes := 0; dummy_buswidth := 0; dummy_dtr := false |}.
Definition zero_data : op_data :=
  {| data_buswidth := 0; data_dtr := false; data_dir := SPI_MEM_DATA_IN;
     data_nbytes := 0; data_buf := NullBuf |}.
Definition zero_op : spi_mem_op :=
  {| cmd := zero_cmd; addr := zero_addr; dummy := zero_dummy; data := zero_data |}.

(** Field assignments used on the read template. *)
Definition set_addr_val (v : Z) (op : spi_mem_op) : spi_mem_op :=
  {| cmd := cmd op;
     addr := {| addr_nbytes := addr_nbytes (addr op);
                addr_buswidth := addr_buswidth (addr op);
                addr_dtr := addr_dtr (addr op);
                addr_val := v |};
     dummy := dummy op;
     data := data op |}.

Definition set_data_buf (b : data_ptr) (op : spi_mem_op) : spi_mem_op :=
  {| cmd := cmd op;
     addr := addr op;
     dummy := dummy op;
     data := {| data_buswidth := data_buswidth (data op);
                data_dtr := data_dtr (data op);
                data_dir := data_dir (data op);
                data_nbytes := data_nbytes (data op);
                data_buf := b |} |}.

Definition set_data_nbytes (n : Z) (op : spi_mem_op) : spi_mem_op :=
  {| cmd := cmd op;
     addr := addr op;
     dummy := dummy op;
     data := {| data_buswidth := data_buswidth (data op);
                data_dtr := data_dtr (data op);
                data_dir := data_dir (data op);
                data_nbytes := n;
                data_buf := data_buf (data op) |} |}.

(** ** Device descriptor (struct nor_device)

    [size] and [flags] are 32-bit fields, the bank and the two bank
    commands are bytes. *)

Record nor_device : Type := {
  read_op : spi_mem_op;
  size : Z;
  flags : Z;
  selected_bank : Z;
  bank_write_cmd : Z;
  bank_read_cmd : Z
}.

Definition set_read_op (op : spi_mem_op) (d : nor_device) : nor_device :=
  {| read_op := op; size := size d; flags := flags d;
     selected_bank := selected_bank d;
     bank_write_cmd := bank_write_cmd d; bank_read_cmd := bank_read_cmd d |}.

Definition set_selected_bank (b : Z) (d : nor_device) : nor_device :=
  {| read_op := read_op d; size := size d; flags := flags d;
     selected_bank := b;
     bank_write_cmd := bank_write_cmd d; bank_read_cmd := bank_read_cmd d |}.

Definition set_bank_cmds (rd wr : Z) (d : nor_device) : nor_device :=
  {| read_op := read_op d; size := size d; flags := flags d;
     selected_bank := selected_bank d;
     bank_write_cmd := wr; bank_read_cmd := rd |}.

(** ** What the driver does to the outside, in order *)

Inductive event : Type :=
| EvExec (op : spi_mem_op) (ret : Z)      (* spi_mem_exec_op and its result *)
| EvDirmap (op : spi_mem_op) (ret : Z)    (* spi_mem_dirmap_read and its result *)
| EvTimeoutInit (us : Z)                  (* timeout_init_us *)
| EvElapsed (expired : bool)              (* timeout_elapsed and its answer *)
| EvDelay (us : Z).                       (* udelay *)

(** ** The environment: SPI transport, timer and platform hook

    [W] is the state of everything outside the driver (flash device, bus
    controller, counter, caller memory).  [spi_mem_exec_op] gives the
    return code and the byte found in a one-byte data buffer after the
    call; the descriptor is passed by pointer to const, so the callee
    cannot change it. *)

Record platform (W : Type) : Type := {
  spi_mem_exec_op : spi_mem_op -> W -> Z * Z * W;
  spi_mem_dirmap_read : spi_mem_op -> W -> Z * W;
  timeout_init_us : Z -> W -> Z * W;
  timeout_elapsed : Z -> W -> bool * W;
  udelay : Z -> W -> W;
  plat_get_nor_data : nor_device -> W -> Z * nor_device * W
}.

Arguments spi_mem_exec_op {W} _ _ _.
Arguments spi_mem_dirmap_read {W} _ _ _.
Arguments timeout_init_us {W} _ _ _.
Arguments timeout_elapsed {W} _ _ _.
Arguments udelay {W} _ _ _.
Arguments plat_get_nor_data {W} _ _ _.

Record state (W : Type) : Type := {
  nor_dev : nor_device;
  world : W;
  trace : list event
}.

Arguments Build_state {W} _ _ _.
Arguments nor_dev {W} _.
Arguments world {W} _.
Arguments trace {W} _.

(** How a call of a function that contains a loop or an assertion ends. *)
Inductive outcome (W A : Type) : Type :=
| Returned (a : A) (s : state W)
| AssertFailed (s : state W)
| OutOfFuel (s : state W).

Arguments Returned {W A} _ _.
Arguments AssertFailed {W A} _.
Arguments OutOfFuel {W A} _.

Definition final_state {W A} (o : outcome W A) : state W :=
  match o with
  | Returned _ s => s
  | AssertFailed s => s
  | OutOfFuel s => s
  end.

Definition returned {W A} (o : outcome W A) : option A :=
  match o with
  | Returned a _ => Some a
  | _ => None
  end.

Section Driver.

Context {W : Type}.
Variable hdr : headers.
Variable plat : platform W.

(** *** State-passing computations *)

Definition M (A : Type) : Type := state W -> A * state W.

Definition ret {A} (a : A) : M A := fun s => (a, s).

Definition bind {A B} (m : M A) (k : A -> M B) : M B :=
  fun s => let (a, s1) := m s in k a s1.

Notation "x <- m ;; k" := (bind m (fun x => k))
  (at level 61, m at next level, right associativity).
Notation "' pat <- m ;; k" := (bind m (fun x => match x with pat => k end))
  (at level 61, pat pattern, m at next level, right associativity).

Definition get_dev : M nor_device := fun s => (nor_dev s, s).

Definition put_dev (d : nor_device) : M unit :=
  fun s => (tt, Build_state d (world s) (trace s)).

Definition emit (w : W) (e : event) (s : state W) : state W :=
  Build_state (nor_dev s) w (trace s ++ [e]).

(** Calls into the environment. *)
Definition exec_op (op : spi_mem_op) : M (Z * Z) :=
  fun s => let '(r, rx, w) := spi_mem_exec_op plat op (world s) in
           ((r, u8 rx), emit w (EvExec op r) s).

Definition dirmap_read (op : spi_mem_op) : M Z :=
  fun s => let '(r, w) := spi_mem_dirmap_read plat op (world s) in
           (r, emit w (EvDirmap op r) s).

Definition do_timeout_init_us (us : Z) : M Z :=
  fun s => let '(t, w) := timeout_init_us plat us (world s) in
           (t, emit w (EvTimeoutInit us) s).

Definition do_timeout_elapsed (t : Z) : M bool :=
  fun s => let '(b, w) := timeout_elapsed plat t (world s) in
           (b, emit w (EvElapsed b) s).

Definition do_udelay (us : Z) : M unit :=
  fun s => (tt, emit (udelay plat us (world s)) (EvDelay us) s).

(** *** Register primitive *)

Definition reg_op (reg : Z) (buf : data_ptr) (len : Z)
    (dir : spi_mem_data_dir) : spi_mem_op :=
  {| cmd := {| cmd_nbytes := 1;
               cmd_buswidth := u8 (SPI_MEM_BUSWIDTH_1_LINE hdr);
               cmd_dtr := false;
               cmd_opcode := u8 reg |};
     addr := zero_addr;
     dummy := zero_dummy;
     data := {| data_buswidth := u8 (SPI_MEM_BUSWIDTH_1_LINE hdr);
                data_dtr := false;
                data_dir := dir;
                data_nbytes := len;
                data_buf := buf |} |}.

Definition spi_nor_reg (reg : Z) (buf : data_ptr) (len : Z)
    (dir : spi_mem_data_dir) : M (Z * Z) :=
  exec_op (reg_op reg buf len dir).

(** The one-byte readers fill a local that holds nothing meaningful
    before the call; it is shown as a zero byte. *)
Definition spi_nor_read_id : M (Z * Z) :=
  spi_nor_reg (SPI_NOR_OP_READ_ID hdr) (Local [0]) 1 SPI_MEM_DATA_IN.

Definition spi_nor_read_cr (cr : Z) : M (Z * Z) :=
  spi_nor_reg (SPI_NOR_OP_READ_CR hdr) (Local [cr]) 1 SPI_MEM_DATA_IN.

Definition spi_nor_read_sr (sr : Z) : M (Z * Z) :=
  spi_nor_reg (SPI_NOR_OP_READ_SR hdr) (Local [sr]) 1 SPI_MEM_DATA_IN.

Definition spi_nor_read_fsr : M (Z * Z) :=
  spi_nor_reg (SPI_NOR_OP_READ_FSR hdr) (Local [0]) 1 SPI_MEM_DATA_IN.

Definition spi_nor_write_en : M Z :=
  '(r, _) <- spi_nor_reg (SPI_NOR_OP_WREN hdr) NullBuf 0 SPI_MEM_DATA_OUT ;;
  ret r.

(** *** Readiness *)

Definition spi_nor_ready : M Z :=
  '(r, sr) <- spi_nor_read_sr 0 ;;
  if r !=? 0 then ret r
  else
    d <- get_dev ;;
    if Z.land (flags d) (SPI_NOR_USE_FSR hdr) !=? 0 then
      '(r, fsr) <- spi_nor_read_fsr ;;
      if r !=? 0 then ret r
      else ret (if (Z.land fsr FSR_READY !=? 0) && (Z.land sr SR_WIP =? 0)
                then 0 else 1)
    else ret (if Z.land sr SR_WIP =? 0 then 0 else 1).

Fixpoint wait_loop (fuel : nat) (timeout : Z) (s : state W)
    : outcome W Z :=
  match fuel with
  | O => OutOfFuel s
  | S fuel' =>
      let (expired, s1) := do_timeout_elapsed timeout s in
      if negb expired then
        let (r, s2) := spi_nor_ready s1 in
        if r <=? 0 then Returned r s2
        else wait_loop fuel' timeout s2
      else Returned (- ETIMEDOUT hdr) s1
  end.

Definition spi_nor_wait_ready (fuel : nat) (s : state W) : outcome W Z :=
  let (timeout, s1) := do_timeout_init_us SPI_READY_TIMEOUT_US s in
  wait_loop fuel timeout s1.

(** *** Computations that may stop early *)

Definition MO (A : Type) : Type := state W -> outcome W A.

Definition lift {A} (m : M A) : MO A :=
  fun s => let (a, s1) := m s in Returned a s1.

Definition retO {A} (a : A) : MO A := fun s => Returned a s.

Definition bindO {A B} (m : MO A) (k : A -> MO B) : MO B :=
  fun s => match m s with
           | Returned a s1 => k a s1
           | AssertFailed s1 => AssertFailed s1
           | OutOfFuel s1 => OutOfFuel s1
           end.

Notation "x <-- m ;; k" := (bindO m (fun x => k))
  (at level 61, m at next level, right associativity).
Notation "' pat <-- m ;; k" := (bindO m (fun x => match x with pat => k end))
  (at level 61, pat pattern, m at next level, right associativity).

(** *** Capability enablement *)

Definition spi_nor_macronix_quad_enable (fuel : nat) : MO Z :=
  '(r, sr) <-- lift (spi_nor_read_sr 0) ;;
  if r !=? 0 then retO r
  else if Z.land sr SR_QUAD_EN_MX !=? 0 then retO 0
  else
    r <-- lift spi_nor_write_en ;;
    if r !=? 0 then retO r
    else
      let sr := u8 (Z.lor sr SR_QUAD_EN_MX) in
      '(r, _) <-- lift (spi_nor_reg (SPI_NOR_OP_WRSR hdr) (Local [sr]) 1
                          SPI_MEM_DATA_OUT) ;;
      if r !=? 0 then retO r
      else
        r <-- spi_nor_wait_ready fuel ;;
        if r !=? 0 then retO r
        else
          '(r, sr) <-- lift (spi_nor_read_sr sr) ;;
          if (r !=? 0) || (Z.land sr SR_QUAD_EN_MX =? 0)
          then retO (- EINVAL hdr)
          else retO 0.

Definition spi_nor_write_sr_cr (fuel : nat) (sr_cr : list Z) : MO Z :=
  r <-- lift spi_nor_write_en ;;
  if r !=? 0 then retO r
  else
    '(r, _) <-- lift (spi_nor_reg (SPI_NOR_OP_WRSR hdr) (Local sr_cr) 2
                        SPI_MEM_DATA_OUT) ;;
    if r !=? 0 then retO (- EINVAL hdr)
    else
      r <-- spi_nor_wait_ready fuel ;;
      if r !=? 0 then retO r
      else retO 0.

Definition spi_nor_quad_enable (fuel : nat) : MO Z :=
  '(r, cr) <-- lift (spi_nor_read_cr 0) ;;
  if r !=? 0 then retO r
  else if Z.land cr CR_QUAD_EN_SPAN !=? 0 then retO 0
  else
    let cr := u8 (Z.lor cr CR_QUAD_EN_SPAN) in
    '(r, sr) <-- lift (spi_nor_read_sr 0) ;;
    if r !=? 0 then retO r
    else
      r <-- spi_nor_write_sr_cr fuel [sr; cr] ;;
      if r !=? 0 then retO r
      else
        '(r, cr) <-- lift (spi_nor_read_cr cr) ;;
        if (r !=? 0) || (Z.land cr CR_QUAD_EN_SPAN =? 0)
        then retO (- EINVAL hdr)
        else retO 0.

Definition octal_op (buf val : Z) : spi_mem_op :=
  {| cmd := {| cmd_nbytes := 1;
               cmd_buswidth := u8 (SPI_MEM_BUSWIDTH_1_LINE hdr);
               cmd_dtr := false;
               cmd_opcode := u16 (SPI_NOR_OP_WR_CR2 hdr) |};
     addr := {| addr_nbytes := 4;
                addr_buswidth := u8 (SPI_MEM_BUSWIDTH_1_LINE hdr);
                addr_dtr := false;
                addr_val := u64 val |};
     dummy := zero_dummy;
     data := {| data_buswidth := u8 (SPI_MEM_BUSWIDTH_1_LINE hdr);
                data_dtr := false;
                data_dir := SPI_MEM_DATA_OUT;
                data_nbytes := 1;
                data_buf := Local [u8 buf] |} |}.

Definition spi_nor_macronix_octal_dtr_enable : M Z :=
  r <- spi_nor_write_en ;;
  if r !=? 0 then ret r
  else
    '(r, _) <- exec_op (octal_op (SPI_NOR_REG_MXIC_DC_20 hdr)
                                 (SPI_NOR_REG_MXIC_CR2_DC hdr)) ;;
    if r !=? 0 then ret r
    else
      r <- spi_nor_write_en ;;
      if r !=? 0 then ret r
      else
        '(r, _) <- exec_op (octal_op (SPI_NOR_REG_MXIC_OPI_DTR_EN hdr)
                                     (SPI_NOR_REG_MXIC_CR2_MODE hdr)) ;;
        ret r.

(** *** Bank register *)

Definition spi_nor_clean_bar : M Z :=
  d <- get_dev ;;
  if selected_bank d =? 0 then ret 0
  else
    _ <- put_dev (set_selected_bank 0 d) ;;
    r <- spi_nor_write_en ;;
    if r !=? 0 then ret r
    else
      '(r, _) <- spi_nor_reg (bank_write_cmd d) (Local [0]) 1
                   SPI_MEM_DATA_OUT ;;
      ret r.

Definition spi_nor_write_bar (offset : Z) : M Z :=
  let bank := u8 (offset / BANK_SIZE) in
  d <- get_dev ;;
  if bank =? selected_bank d then ret 0
  else
    r <- spi_nor_write_en ;;
    if r !=? 0 then ret r
    else
      '(r, _) <- spi_nor_reg (bank_write_cmd d) (Local [bank]) 1
                   SPI_MEM_DATA_OUT ;;
      if r !=? 0 then ret r
      else
        d <- get_dev ;;
        _ <- put_dev (set_selected_bank bank d) ;;
        ret 0.

Definition spi_nor_read_bar : M Z :=
  d <- get_dev ;;
  '(r, bank) <- spi_nor_reg (bank_read_cmd d) (Local [0]) 1
                  SPI_MEM_DATA_IN ;;
  if r !=? 0 then ret r
  else
    d <- get_dev ;;
    _ <- put_dev (set_selected_bank bank d) ;;
    ret 0.

(** *** Banked linear read *)

Definition size_t (x : Z) : Z := wrap (size_t_bits hdr) x.

Definition use_bank (d : nor_device) : bool :=
  Z.land (flags d) (SPI_NOR_USE_BANK hdr) !=? 0.

Definition buf_add (b : data_ptr) (n : Z) : data_ptr :=
  match b with
  | Addr a => Addr (size_t (a + n))
  | _ => b
  end.

(** One turn of the [while] loop up to the bulk read: the bank is
    selected and the chunk length stored in the template.  [inl r] is
    the early [return r]. *)
Definition read_chunk_setup (length : Z) : M (Z + unit) :=
  d <- get_dev ;;
  if use_bank d then
    r <- spi_nor_write_bar (u32 (addr_val (addr (read_op d)))) ;;
    if r !=? 0 then ret (inl r)
    else
      d <- get_dev ;;
      let remain_len :=
        size_t (u64 (u32 (BANK_SIZE * (selected_bank d + 1))
                     - addr_val (addr (read_op d)))) in
      _ <- put_dev (set_read_op
                      (set_data_nbytes (u32 (Z.min length remain_len))
                                       (read_op d)) d) ;;
      ret (inr tt)
  else
    _ <- put_dev (set_read_op (set_data_nbytes (u32 length) (read_op d)) d) ;;
    ret (inr tt).

(** The assignments closing a successful turn. *)
Definition read_advance : M unit :=
  d <- get_dev ;;
  let n := data_nbytes (data (read_op d)) in
  put_dev (set_read_op
             (set_data_buf (buf_add (data_buf (data (read_op d))) n)
                (set_addr_val (u64 (addr_val (addr (read_op d)) + n))
                   (read_op d))) d).

Fixpoint read_loop (fuel : nat) (length length_read : Z) (s : state W)
    : outcome W (Z * Z) :=
  match fuel with
  | O => OutOfFuel s
  | S fuel' =>
      if length !=? 0 then
        let (e, s1) := read_chunk_setup length s in
        match e with
        | inl r => Returned (r, length_read) s1
        | inr _ =>
            let (r, s2) := dirmap_read (read_op (nor_dev s1)) s1 in
            if r !=? 0 then
              let (_, s3) := spi_nor_clean_bar s2 in
              Returned (r, length_read) s3
            else
              let n := data_nbytes (data (read_op (nor_dev s2))) in
              let (_, s3) := read_advance s2 in
              read_loop fuel' (size_t (length - n))
                        (size_t (length_read + n)) s3
        end
      else if use_bank (nor_dev s) then
        let (r, s1) := spi_nor_clean_bar s in
        if r !=? 0 then Returned (r, length_read) s1
        else Returned (0, length_read) s1
      else Returned (0, length_read) s
  end.

(** Returns the status and the value left in [*length_read]. *)
Definition spi_nor_read (fuel : nat) (offset buffer length : Z)
    : MO (Z * Z) :=
  fun s =>
    let d := nor_dev s in
    let (_, s1) :=
      put_dev (set_read_op
                 (set_data_buf (Addr buffer)
                    (set_addr_val offset (read_op d))) d) s in
    read_loop fuel length 0 s1.

(** *** Initialisation *)

(** The default read command stored in the template. *)
Definition default_read_op (op : spi_mem_op) : spi_mem_op :=
  {| cmd := {| cmd_nbytes := 1;
               cmd_buswidth := u8 (SPI_MEM_BUSWIDTH_1_LINE hdr);
               cmd_dtr := cmd_dtr (cmd op);
               cmd_opcode := u16 (SPI_NOR_OP_READ hdr) |};
     addr := {| addr_nbytes := 3;
                addr_buswidth := u8 (SPI_MEM_BUSWIDTH_1_LINE hdr);
                addr_dtr := addr_dtr (addr op);
                addr_val := addr_val (addr op) |};
     dummy := dummy op;
     data := {| data_buswidth := u8 (SPI_MEM_BUSWIDTH_1_LINE hdr);
                data_dtr := data_dtr (data op);
                data_dir := SPI_MEM_DATA_IN;
                data_nbytes := data_nbytes (data op);
                data_buf := data_buf (data op) |} |}.

Definition do_plat_get_nor_data : M Z :=
  fun s => let '(r, d, w) := plat_get_nor_data plat (nor_dev s) (world s) in
           (r, Build_state d w (trace s)).

Definition assertO (b : bool) : MO unit :=
  fun s => if b then Returned tt s else AssertFailed s.

Definition select_bank_cmds (id : Z) : M unit :=
  d <- get_dev ;;
  if use_bank d then
    if id =? SPANSION_ID
    then put_dev (set_bank_cmds (u8 (SPINOR_OP_BRRD hdr))
                                (u8 (SPINOR_OP_BRWR hdr)) d)
    else put_dev (set_bank_cmds (u8 (SPINOR_OP_RDEAR hdr))
                                (u8 (SPINOR_OP_WREAR hdr)) d)
  else ret tt.

(** Returns the status and the value written to [*size], if any;
    [*erase_size] is never written. *)
Definition spi_nor_init (fuel : nat) : MO (Z * option Z) :=
  d <-- lift get_dev ;;
  _ <-- lift (put_dev (set_read_op (default_read_op (read_op d)) d)) ;;
  r <-- lift do_plat_get_nor_data ;;
  if r !=? 0 then retO (- EINVAL hdr, None)
  else
    d <-- lift get_dev ;;
    _ <-- assertO (size d !=? 0) ;;
    let size_out := Some (size d) in
    '(r, id) <-- lift spi_nor_read_id ;;
    if r !=? 0 then retO (r, size_out)
    else if cmd_nbytes (cmd (read_op d)) =? 2 then
      if cmd_buswidth (cmd (read_op d)) =? 8 then
        if id =? MACRONIX_ID then
          r <-- lift spi_nor_macronix_octal_dtr_enable ;;
          retO (r, size_out)
        else retO (- EOPNOTSUPP hdr, size_out)
      else retO (- EOPNOTSUPP hdr, size_out)
    else
      _ <-- lift (select_bank_cmds id) ;;
      r <-- (if data_buswidth (data (read_op d)) =? 4 then
               if id =? MACRONIX_ID then spi_nor_macronix_quad_enable fuel
               else if id =? MICRON_ID then retO r
               else spi_nor_quad_enable fuel
             else retO r) ;;
      if (r =? 0) && use_bank d then
        r <-- lift spi_nor_read_bar ;;
        retO (r, size_out)
      else retO (r, size_out).

(** *** Software reset *)

Definition reset_op (opcode : Z) : spi_mem_op :=
  {| cmd := {| cmd_nbytes := 2;
               cmd_buswidth := u8 (SPI_MEM_BUSWIDTH_8_LINE hdr);
               cmd_dtr := true;
               cmd_opcode := opcode |};
     addr := {| addr_nbytes := 0; addr_buswidth := 0; addr_dtr := true;
                addr_val := 0 |};
     dummy := {| dummy_nbytes := 0; dummy_buswidth := 0;
                 dummy_dtr := true |};
     data := {| data_buswidth := 0;
                data_dtr := true;
                data_dir := SPI_MEM_DATA_OUT;
                data_nbytes := 0;
                data_buf := NullBuf |} |}.

(** The two-byte form of a reset opcode: the byte followed by itself
    or by its complement. *)
Definition reset_opcode (repeat : bool) (c : Z) : Z :=
  let opcode := u16 (Z.shiftl c 8) in
  if repeat then u16 (Z.lor opcode (Z.land c 0xFF))
  else u16 (Z.lor opcode (Z.land (Z.lnot c) 0xFF)).

Definition spi_nor_reset : M Z :=
  d <- get_dev ;;
  if cmd_nbytes (cmd (read_op d)) !=? 2 then ret 0
  else
    let repeat :=
      Z.shiftr (Z.land (cmd_opcode (cmd (read_op d))) 0xFF00) 8
      =? Z.land (cmd_opcode (cmd (read_op d))) 0x00FF in
    '(r, _) <- exec_op (reset_op (reset_opcode repeat
                                    (SPI_NOR_OP_SRSTEN hdr))) ;;
    if r !=? 0 then ret r
    else
      '(r, _) <- exec_op (reset_op (reset_opcode repeat
                                      (SPI_NOR_OP_SRST hdr))) ;;
      if r !=? 0 then ret r
      else
        _ <- do_udelay SPI_NOR_SRST_US ;;
        ret 0.

End Driver.

Arguments wrap : simpl never.
Arguments u8 : simpl never.
Arguments u16 : simpl never.
Arguments u32 : simpl never.
Arguments u64 : simpl never.
Arguments BIT : simpl never.

(** ** A concrete environment

    Usual values of the header macros (JEDEC opcodes, 32-bit [size_t])
    and a transport that answers from a script: each call of [spi_mem_exec_op]
    or [spi_mem_dirmap_read] consumes the next reply (return code and
    received byte), each call of [timeout_elapsed] the next answer of the
    clock.  An exhausted script answers success, byte 0 and "expired".
    The platform hook is the weak default of spi_nor.c, which returns 0
    and leaves the descriptor alone. *)

Definition std_headers : headers :=
  {| SPI_NOR_OP_WREN := 0x06;
     SPI_NOR_OP_WRSR := 0x01;
     SPI_NOR_OP_READ_ID := 0x9F;
     SPI_NOR_OP_READ_CR := 0x35;
     SPI_NOR_OP_READ_SR := 0x05;
     SPI_NOR_OP_READ_FSR := 0x70;
     SPI_NOR_OP_READ := 0x03;
     SPI_NOR_OP_WR_CR2 := 0x72;
     SPI_NOR_OP_SRSTEN := 0x66;
     SPI_NOR_OP_SRST := 0x99;
     SPINOR_OP_RDEAR := 0xC8;
     SPINOR_OP_WREAR := 0xC5;
     SPINOR_OP_BRWR := 0x17;
     SPINOR_OP_BRRD := 0x16;
     SPI_NOR_REG_MXIC_CR2_MODE := 0x00000000;
     SPI_NOR_REG_MXIC_CR2_DC := 0x00000300;
     SPI_NOR_REG_MXIC_OPI_DTR_EN := 0x2;
     SPI_NOR_REG_MXIC_DC_20 := 0x0;
     SPI_NOR_USE_FSR := BIT 0;
     SPI_NOR_USE_BANK := BIT 1;
     SPI_MEM_BUSWIDTH_1_LINE := 1;
     SPI_MEM_BUSWIDTH_8_LINE := 8;
     EINVAL := 22;
     ETIMEDOUT := 60;
     EOPNOTSUPP := 45;
     size_t_bits := 32 |}.

Record script : Type := {
  replies : list (Z * Z);
  clock : list bool
}.

Definition next_reply (w : script) : Z * Z * script :=
  match replies w with
  | [] => (0, 0, w)
  | (r, rx) :: rest => (r, rx, {| replies := rest; clock := clock w |})
  end.

Definition next_tick (w : script) : bool * script :=
  match clock w with
  | [] => (true, w)
  | b :: rest => (b, {| replies := replies w; clock := rest |})
  end.

Definition scripted : platform script :=
  {| spi_mem_exec_op := fun _ w => next_reply w;
     spi_mem_dirmap_read := fun _ w => let '(r, _, w1) := next_reply w in (r, w1);
     timeout_init_us := fun us w => (us, w);
     timeout_elapsed := fun _ w => next_tick w;
     udelay := fun _ w => w;
     plat_get_nor_data := fun d w => (0, d, w) |}.

(** A descriptor as [spi_nor_init] leaves it for a single-line device of
    [sz] bytes with option bits [fl] and cached bank [bank]. *)
Definition std_read_op : spi_mem_op := default_read_op std_headers zero_op.

Definition std_dev (sz fl bank : Z) : nor_device :=
  {| read_op := std_read_op; size := sz; flags := fl;
     selected_bank := bank; bank_write_cmd := 0xC5; bank_read_cmd := 0xC8 |}.

Definition start {W} (d : nor_device) (w : W) : state W :=
  Build_state d w [].

(** ** Vocabulary of the statements *)

Section Vocabulary.

Variable hdr : headers.

(** The descriptors of the register transactions. *)
Definition read_sr_op (sr : Z) : spi_mem_op :=
  reg_op hdr (SPI_NOR_OP_READ_SR hdr) (Local [sr]) 1 SPI_MEM_DATA_IN.

Definition read_fsr_op : spi_mem_op :=
  reg_op hdr (SPI_NOR_OP_READ_FSR hdr) (Local [0]) 1 SPI_MEM_DATA_IN.

Definition read_id_op : spi_mem_op :=
  reg_op hdr (SPI_NOR_OP_READ_ID hdr) (Local [0]) 1 SPI_MEM_DATA_IN.

Definition write_en_op : spi_mem_op :=
  reg_op hdr (SPI_NOR_OP_WREN hdr) NullBuf 0 SPI_MEM_DATA_OUT.

Definition write_sr_op (sr : Z) : spi_mem_op :=
  reg_op hdr (SPI_NOR_OP_WRSR hdr) (Local [sr]) 1 SPI_MEM_DATA_OUT.

Definition write_bank_op (d : nor_device) (bank : Z) : spi_mem_op :=
  reg_op hdr (bank_write_cmd d) (Local [bank]) 1 SPI_MEM_DATA_OUT.

(** The two-byte opcode whose high and low byte are both [c]. *)
Definition repeated (c : Z) : Z := Z.lor (Z.shiftl c 8) c.

(** The high byte of the template's read opcode equals its low byte. *)
Definition palindromic (d : nor_device) : Prop :=
  Z.shiftr (Z.land (cmd_opcode (cmd (read_op d))) 0xFF00) 8
  = Z.land (cmd_opcode (cmd (read_op d))) 0x00FF.

(** A transaction of the octal DTR enable sequence. *)
Definition octal_step (e : event) : Prop :=
  match e with
  | EvExec op _ =>
      op = write_en_op
      \/ op = octal_op hdr (SPI_NOR_REG_MXIC_DC_20 hdr)
                           (SPI_NOR_REG_MXIC_CR2_DC hdr)
      \/ op = octal_op hdr (SPI_NOR_REG_MXIC_OPI_DTR_EN hdr)
                           (SPI_NOR_REG_MXIC_CR2_MODE hdr)
  | _ => False
  end.

(** The fields of the read template other than the address value, the
    data buffer pointer and the data byte count. *)
Definition template_fixed (op : spi_mem_op)
    : op_cmd * (Z * Z * bool) * op_dummy * (Z * bool * spi_mem_data_dir) :=
  (cmd op,
   (addr_nbytes (addr op), addr_buswidth (addr op), addr_dtr (addr op)),
   dummy op,
   (data_buswidth (data op), data_dtr (data op), data_dir (data op))).

(** Total byte count of the bulk reads of a log that returned 0. *)
Fixpoint bytes_completed (evs : list event) : Z :=
  match evs with
  | [] => 0
  | EvDirmap op r :: rest =>
      (if r =? 0 then data_nbytes (data op) else 0) + bytes_completed rest
  | _ :: rest => bytes_completed rest
  end.

(** Every bulk read of the log returned 0. *)
Definition all_completed (evs : list event) : Prop :=
  Forall (fun e => match e with EvDirmap _ r => r = 0 | _ => True end) evs.

(** No bulk read of the log returned 0. *)
Definition none_completed (evs : list event) : Prop :=
  Forall (fun e => match e with EvDirmap _ r => r <> 0 | _ => True end) evs.

(** The bulk reads of a log, read in order from address [a] with [rem]
    bytes still to read: each starts where the previous one ended, is as
    long as the smaller of the bytes still to read and the bytes from its
    address to the end of the bank window that holds it, is not empty,
    and ends in the window where it starts. *)
Fixpoint chunks_ok (a rem : Z) (evs : list event) : Prop :=
  match evs with
  | [] => True
  | EvDirmap op _ :: rest =>
      let n := data_nbytes (data op) in
      addr_val (addr op) = a /\
      n = Z.min rem (BANK_SIZE * (a / BANK_SIZE + 1) - a) /\
      0 < n /\
      a / BANK_SIZE = (a + n - 1) / BANK_SIZE /\
      chunks_ok (a + n) (rem - n) rest
  | _ :: rest => chunks_ok a rem rest
  end.

(** The chunk length stored in the template by one turn of the read
    loop that starts with [length] bytes left. *)
Definition chunk_len (length : Z) (d : nor_device) : Z :=
  let a := addr_val (addr (read_op d)) in
  if use_bank hdr d then
    u32 (Z.min length
           (size_t hdr
              (u64 (u32 (BANK_SIZE * (u8 (u32 a / BANK_SIZE) + 1)) - a))))
  else u32 length.

(** The template after the assignments that close a successful turn. *)
Definition advance_op (op : spi_mem_op) : spi_mem_op :=
  let n := data_nbytes (data op) in
  set_data_buf (buf_add hdr (data_buf (data op)) n)
    (set_addr_val (u64 (addr_val (addr op) + n)) op).

(** The flag-status option is set. *)
Definition use_fsr (d : nor_device) : Prop :=
  Z.land (flags d) (SPI_NOR_USE_FSR hdr) <> 0.

(** A transaction of the register primitive. *)
Definition is_exec (e : event) : Prop :=
  match e with
  | EvExec _ _ => True
  | _ => False
  end.


End Vocabulary.

(** What a step leaves alone: the read template and the option bits; it
    only adds register transactions to the log. *)
Definition quiet {W : Type} (s s' : state W) : Prop :=
  read_op (nor_dev s') = read_op (nor_dev s) /\
  flags (nor_dev s') = flags (nor_dev s) /\
  size (nor_dev s') = size (nor_dev s) /\
  exists evs, trace s' = trace s ++ evs /\ Forall is_exec evs.


(** ** Scenarios *)

(** A device that polls the flag-status register, still writing (WIP set)
    while its flag status already says ready: the check reports busy. *)
Definition busy_but_flagged : state script :=
  start (std_dev 0x1000000 (BIT 0) 0)
        {| replies := [(0, 0x01); (0, 0x80)]; clock := [] |}.


(** The descriptor of a 32 MiB banked device whose cache says bank 1, on
    a bus where the next transaction fails with -5. *)
Definition bank1_bus_down : state script :=
  start (std_dev 0x2000000 (BIT 1) 1)
        {| replies := [(-5, 0)]; clock := [] |}.

(** A Macronix device with the quad bit clear that refuses the
    write-enable command with -5. *)
Definition quad_wren_refused : state script :=
  start (std_dev 0x1000000 0 0)
        {| replies := [(0, 0x00); (-5, 0)]; clock := [] |}.

(** A Macronix device with the quad bit clear that accepts every command
    but does not keep the bit. *)
Definition quad_not_sticking : state script :=
  start (std_dev 0x1000000 0 0)
        {| replies := [(0, 0x00); (0, 0); (0, 0); (0, 0x00); (0, 0x00)];
           clock := [false] |}.

(** An octal DTR device read with the two-byte command 0xEEEE over eight
    lines. *)
Definition octal_read_op (opcode : Z) : spi_mem_op :=
  {| cmd := {| cmd_nbytes := 2; cmd_buswidth := 8; cmd_dtr := true;
               cmd_opcode := opcode |};
     addr := {| addr_nbytes := 4; addr_buswidth := 8; addr_dtr := true;
                addr_val := 0 |};
     dummy := {| dummy_nbytes := 20; dummy_buswidth := 8;
                 dummy_dtr := true |};
     data := {| data_buswidth := 8; data_dtr := true;
                data_dir := SPI_MEM_DATA_IN; data_nbytes := 0;
                data_buf := NullBuf |} |}.

Definition octal_dev : nor_device :=
  set_read_op (octal_read_op 0xEEEE) (std_dev 0x4000000 0 0).

Definition octal_idle : state script :=
  start octal_dev {| replies := []; clock := [] |}.

(** A platform whose hook fills the descriptor with [octal_dev], and a
    flash that identifies as a Micron part (the descriptor is still
    empty before [spi_nor_init]). *)
Definition octal_platform : platform script :=
  {| spi_mem_exec_op := spi_mem_exec_op scripted;
     spi_mem_dirmap_read := spi_mem_dirmap_read scripted;
     timeout_init_us := timeout_init_us scripted;
     timeout_elapsed := timeout_elapsed scripted;
     udelay := udelay scripted;
     plat_get_nor_data := fun _ w => (0, octal_dev, w) |}.

Definition micron_attached : state script :=
  start (std_dev 0 0 0) {| replies := [(0, 0x2C)]; clock := [] |}.

(** A 32 MiB banked device with bank 0 selected and a bus that accepts
    everything. *)
Definition two_banks : state script :=
  start (std_dev 0x2000000 (BIT 1) 0) {| replies := []; clock := [] |}.

(** The same device when the second bulk read fails with -5. *)
Definition two_banks_read_fails : state script :=
  start (std_dev 0x2000000 (BIT 1) 0)
        {| replies := [(0, 0); (0, 0); (0, 0); (-5, 0)]; clock := [] |}.

(** A 64 MiB banked device with bank 0 selected: the first bank select
    and bulk read succeed, the write-enable of the second bank select
    fails with -5. *)
Definition bank_select_fails : state script :=
  start (std_dev 0x4000000 (BIT 1) 0)
        {| replies := [(0, 0); (0, 0); (0, 0); (-5, 0)]; clock := [] |}.

(** ** Further vocabulary and scenarios *)

(** The two-byte opcode whose low byte is the complement of its high
    byte [c]. *)
Definition inverted (c : Z) : Z := Z.lor (Z.shiftl c 8) (255 - c).

(** The descriptors of the remaining register transactions. *)
Definition read_cr_op (hdr : headers) (cr : Z) : spi_mem_op :=
  reg_op hdr (SPI_NOR_OP_READ_CR hdr) (Local [cr]) 1 SPI_MEM_DATA_IN.

Definition write_sr_cr_op (hdr : headers) (sr cr : Z) : spi_mem_op :=
  reg_op hdr (SPI_NOR_OP_WRSR hdr) (Local [sr; cr]) 2 SPI_MEM_DATA_OUT.

Definition read_bank_op (hdr : headers) (d : nor_device) : spi_mem_op :=
  reg_op hdr (bank_read_cmd d) (Local [0]) 1 SPI_MEM_DATA_IN.

(** A Macronix device whose status register already has the quad bit. *)
Definition quad_already_set : state script :=
  start (std_dev 0x1000000 0 0) {| replies := [(0, 0x40)]; clock := [] |}.

(** A Spansion-style device with the quad bit clear that rejects the
    combined status and configuration write with -5. *)
Definition span_write_rejected : state script :=
  start (std_dev 0x1000000 0 0)
        {| replies := [(0, 0x00); (0, 0x1C); (0, 0); (-5, 0)]; clock := [] |}.

(** An octal DTR device whose two-byte read command 0xEE11 carries the
    complement in its low byte. *)
Definition octal_inv_dev : nor_device :=
  set_read_op (octal_read_op 0xEE11) (std_dev 0x4000000 0 0).

Definition octal_inv_idle : state script :=
  start octal_inv_dev {| replies := []; clock := [] |}.

(** The bank commands [spi_nor_init] selects for a device ID. *)
Definition bank_cmds_for (hdr : headers) (id : Z) (d : nor_device)
    : nor_device :=
  if id =? SPANSION_ID
  then set_bank_cmds (u8 (SPINOR_OP_BRRD hdr)) (u8 (SPINOR_OP_BRWR hdr)) d
  else set_bank_cmds (u8 (SPINOR_OP_RDEAR hdr)) (u8 (SPINOR_OP_WREAR hdr)) d.

(** A 32 MiB banked Spansion device, not yet initialised, whose bank
    register holds 1. *)
Definition spansion_banked : state script :=
  start (std_dev 0x2000000 (BIT 1) 0)
        {| replies := [(0, 0x01); (0, 0x01)]; clock := [] |}.

(** A platform whose hook sets a 4-line data phase, and a Macronix flash
    with the quad bit clear that refuses the write-enable with -5. *)
Definition quad_read_op : spi_mem_op :=
  {| cmd := cmd std_read_op;
     addr := addr std_read_op;
     dummy := {| dummy_nbytes := 1; dummy_buswidth := 1;
                 dummy_dtr := false |};
     data := {| data_buswidth := 4; data_dtr := false;
                data_dir := SPI_MEM_DATA_IN; data_nbytes := 0;
                data_buf := NullBuf |} |}.

Definition quad_dev : nor_device :=
  set_read_op quad_read_op (std_dev 0x2000000 (BIT 1) 0).

Definition quad_platform : platform script :=
  {| spi_mem_exec_op := spi_mem_exec_op scripted;
     spi_mem_dirmap_read := spi_mem_dirmap_read scripted;
     timeout_init_us := timeout_init_us scripted;
     timeout_elapsed := timeout_elapsed scripted;
     udelay := udelay scripted;
     plat_get_nor_data := fun _ w => (0, quad_dev, w) |}.

Definition macronix_quad_refused : state script :=
  start (std_dev 0 0 0)
        {| replies := [(0, 0xC2); (0, 0x00); (-5, 0)]; clock := [] |}.

(** The descriptor fields that are set up once, by the platform hook and
    [spi_nor_init]. *)
Definition config (d : nor_device) : Z * Z * Z * Z :=
  (size d, flags d, bank_write_cmd d, bank_read_cmd d).

(** A state-passing computation that leaves the descriptor alone. *)
Definition keeps_dev {W A : Type} (m : state W -> A * state W) : Prop :=
  forall s, nor_dev (snd (m s)) = nor_dev s.

Definition keeps_devO {W A : Type} (m : state W -> outcome W A) : Prop :=
  forall s, nor_dev (final_state (m s)) = nor_dev s.

(** The read template as [spi_nor_read] sets it on entry. *)
Definition entry_op (offset buffer : Z) (d : nor_device) : spi_mem_op :=
  set_data_buf (Addr buffer) (set_addr_val offset (read_op d)).

(** A 16 MiB device without bank switching. *)
Definition one_bank : state script :=
  start (std_dev 0x1000000 0 0) {| replies := []; clock := [] |}.

(** The bank value carried by an accepted write of the bank register
    (command [wr], one data byte sent), if the event is one. *)
Definition bank_written (wr : Z) (e : event) : option Z :=
  match e with
  | EvExec op r =>
      if (r =? 0) && (cmd_opcode (cmd op) =? u8 wr) then
        match data_dir (data op), data_buf (data op) with
        | SPI_MEM_DATA_OUT, Local [b] => Some b
        | _, _ => None
        end
      else None
  | _ => None
  end.

(** The bank the device has selected after a log, when it had [cur]
    selected before. *)
Fixpoint last_bank (wr cur : Z) (evs : list event) : Z :=
  match evs with
  | [] => cur
  | e :: rest =>
      last_bank wr (match bank_written wr e with
                    | Some b => b
                    | None => cur
                    end) rest
  end.

(** Every bulk read of the log is issued while the device has the bank
    of the read's address selected. *)
Fixpoint reads_in_bank (wr cur : Z) (evs : list event) : Prop :=
  match evs with
  | [] => True
  | EvDirmap op _ :: rest =>
      addr_val (addr op) / BANK_SIZE = cur /\ reads_in_bank wr cur rest
  | e :: rest =>
      reads_in_bank wr (match bank_written wr e with
                        | Some b => b
                        | None => cur
                        end) rest
  end.

(** * Properties *)

(** Unfolding of the state-passing combinators. *)
Ltac msimpl :=
  repeat (progress (unfold bind, ret, get_dev, put_dev, exec_op, dirmap_read,
                      emit, lift, retO, bindO;
                    cbn beta iota zeta;
                    cbn [nor_dev world trace fst snd negb])).

Ltac msimpl_in H :=
  repeat (progress (unfold bind, ret, get_dev, put_dev, exec_op, dirmap_read,
                      emit, lift, retO, bindO in H;
                    cbn beta iota zeta in H;
                    cbn [nor_dev world trace fst snd negb] in H)).

(** ** Bit tests *)

Lemma land_BIT (x n : Z) :
  0 <= n -> Z.land x (BIT n) = if Z.testbit x n then 2 ^ n else 0.
Proof.
  intros Hn. unfold BIT. rewrite Z.shiftl_1_l.
  apply Z.bits_inj'. intros m Hm.
  rewrite Z.land_spec, Z.pow2_bits_eqb by assumption.
  destruct (Z.eqb_spec n m) as [->|Hne].
  - destruct (Z.testbit x m); simpl.
    + now rewrite Z.pow2_bits_true.
    + now rewrite Z.bits_0.
  - rewrite andb_false_r.
    destruct (Z.testbit x n).
    + now rewrite Z.pow2_bits_false.
    + now rewrite Z.bits_0.
Qed.

Lemma land_BIT_zero (x n : Z) :
  0 <= n -> (Z.land x (BIT n) =? 0) = negb (Z.testbit x n).
Proof.
  intros Hn. rewrite land_BIT by assumption.
  destruct (Z.testbit x n); simpl.
  - apply Z.eqb_neq. pose proof (Z.pow_pos_nonneg 2 n). lia.
  - reflexivity.
Qed.

(** ** Readiness *)

Section Readiness.

Context {W : Type}.
Variable hdr : headers.
Variable plat : platform W.

(** C6.  [spi_nor_ready] returns 0, 1 or the code of a failing register
    read, which is negative when the transport reports failures by
    negative codes (the hypotheses on [r1] and [r2]).  It returns 0 exactly when the status read succeeds
    with WIP (bit 0) clear and, if the flag-status option is set, the
    flag-status read succeeds with READY (bit 7) set; so it never
    returns 0 while WIP is set.  A failing status read ends the call
    with its code after that single transaction, and a failing
    flag-status read ends it with its code. *)
Theorem spi_nor_ready_tristate (s : state W) r1 rx1 w1 r2 rx2 w2 :
  spi_mem_exec_op plat (read_sr_op hdr 0) (world s) = (r1, rx1, w1) ->
  spi_mem_exec_op plat (read_fsr_op hdr) w1 = (r2, rx2, w2) ->
  r1 <= 0 -> (use_fsr hdr (nor_dev s) -> r2 <= 0) ->
  let r := fst (spi_nor_ready hdr plat s) in
  let s' := snd (spi_nor_ready hdr plat s) in
  (r = 0 \/ r = 1 \/ r < 0) /\
  (r = 0 <->
     r1 = 0 /\ Z.testbit (u8 rx1) 0 = false /\
     (use_fsr hdr (nor_dev s) -> r2 = 0 /\ Z.testbit (u8 rx2) 7 = true)) /\
  (r1 <> 0 ->
     r = r1 /\ trace s' = trace s ++ [EvExec (read_sr_op hdr 0) r1]) /\
  (r1 = 0 -> use_fsr hdr (nor_dev s) -> r2 <> 0 -> r = r2).
Proof.
  intros E1 E2 L1 L2.
  unfold spi_nor_ready, bind, spi_nor_read_sr, spi_nor_read_fsr, spi_nor_reg,
    exec_op, get_dev, ret, use_fsr.
  fold (read_sr_op hdr 0). fold (read_fsr_op hdr). rewrite E1.
  destruct (Z.eqb_spec r1 0) as [->|N1];
    cbn [negb fst snd emit nor_dev world trace].
  2:{ repeat split; try lia; try tauto. }
  destruct (Z.eqb_spec (Z.land (flags (nor_dev s)) (SPI_NOR_USE_FSR hdr)) 0)
    as [F|F]; cbn [negb fst snd emit nor_dev world trace].
  - unfold SR_WIP. rewrite land_BIT_zero by lia.
    destruct (Z.testbit (u8 rx1) 0); cbn;
      repeat split; intros; try lia; try tauto; try congruence;
      intuition congruence.
  - rewrite E2. specialize (L2 F).
    destruct (Z.eqb_spec r2 0) as [->|N2];
      cbn [negb fst snd emit nor_dev world trace].
    + unfold SR_WIP, FSR_READY. rewrite !land_BIT_zero by lia.
      destruct (Z.testbit (u8 rx1) 0), (Z.testbit (u8 rx2) 7); cbn;
        repeat split; intros; try lia; try tauto; try congruence;
        intuition congruence.
    + repeat split; intros; try lia; try tauto; intuition congruence.
Qed.

End Readiness.

Lemma spi_nor_ready_tristate_witness :
  let r := fst (spi_nor_ready std_headers scripted busy_but_flagged) in
  (r = 0 \/ r = 1 \/ r < 0) /\
  (r = 0 <->
     0 = 0 /\ Z.testbit (u8 0x01) 0 = false /\
     (use_fsr std_headers (nor_dev busy_but_flagged) ->
      0 = 0 /\ Z.testbit (u8 0x80) 7 = true)).
Proof.
  pose proof (spi_nor_ready_tristate std_headers scripted busy_but_flagged
                0 0x01 {| replies := [(0, 0x80)]; clock := [] |}
                0 0x80 {| replies := []; clock := [] |}
                eq_refl eq_refl ltac:(lia) ltac:(lia)) as (T & R & _).
  split; assumption.
Defined.

(** ** Waiting for readiness *)

Section Waiting.

Context {W : Type}.
Variable hdr : headers.
Variable plat : platform W.

Lemma exec_op_effect (op : spi_mem_op) (s : state W) :
  nor_dev (snd (exec_op plat op s)) = nor_dev s /\
  trace (snd (exec_op plat op s)) =
    trace s ++ [EvExec op (fst (fst (exec_op plat op s)))].
Proof.
  unfold exec_op. destruct (spi_mem_exec_op plat op (world s)) as [[r rx] w].
  split; reflexivity.
Qed.

Lemma spi_nor_ready_effect (s : state W) :
  nor_dev (snd (spi_nor_ready hdr plat s)) = nor_dev s /\
  exists evs, trace (snd (spi_nor_ready hdr plat s)) = trace s ++ evs /\
              Forall is_exec evs.
Proof.
  unfold spi_nor_ready, bind, spi_nor_read_sr, spi_nor_read_fsr, spi_nor_reg,
    get_dev, ret.
  destruct (exec_op_effect (reg_op hdr (SPI_NOR_OP_READ_SR hdr) (Local [0]) 1
                              SPI_MEM_DATA_IN) s) as [D1 T1].
  destruct (exec_op plat _ s) as [[r1 sr] s1]; cbn [fst snd] in *.
  destruct (r1 !=? 0).
  { split; [assumption|]. eexists; split; [eassumption|].
    repeat constructor. }
  destruct (Z.land (flags (nor_dev s1)) (SPI_NOR_USE_FSR hdr) !=? 0).
  2:{ split; [assumption|]. eexists; split; [eassumption|].
      repeat constructor. }
  destruct (exec_op_effect (reg_op hdr (SPI_NOR_OP_READ_FSR hdr) (Local [0]) 1
                              SPI_MEM_DATA_IN) s1) as [D2 T2].
  destruct (exec_op plat _ s1) as [[r2 fsr] s2]; cbn [fst snd] in *.
  assert (trace s2 = trace s ++ [EvExec (read_sr_op hdr 0) r1;
                                 EvExec (read_fsr_op hdr) r2]) as T.
  { rewrite T2, T1, <- app_assoc. reflexivity. }
  destruct (r2 !=? 0); cbn [snd]; (split; [congruence|]);
    eexists; (split; [exact T|]); repeat constructor.
Qed.




End Waiting.


(** ** Macronix quad enable *)

Section QuadEnable.

Context {W : Type}.
Variable hdr : headers.
Variable plat : platform W.

(** C4 (as the code has it).  With the quad-enable bit found clear, a
    failing write-enable, status-register write or wait-ready ends the
    sequence with that step's own code; only a failing verifying re-read,
    or a re-read that shows the bit still clear, gives -EINVAL; the call
    returns 0 when the re-read succeeds with the bit set. *)
Theorem macronix_quad_enable_errors (fuel : nat) (s : state W)
    sr s1 r1 s2 r2 rx s3 :
  spi_nor_read_sr hdr plat 0 s = ((0, sr), s1) ->
  Z.testbit sr 6 = false ->
  spi_nor_write_en hdr plat s1 = (r1, s2) ->
  spi_nor_reg hdr plat (SPI_NOR_OP_WRSR hdr)
    (Local [u8 (Z.lor sr SR_QUAD_EN_MX)]) 1 SPI_MEM_DATA_OUT s2
    = ((r2, rx), s3) ->
  let o := spi_nor_macronix_quad_enable hdr plat fuel s in
  (r1 <> 0 -> o = Returned r1 s2) /\
  (r1 = 0 -> r2 <> 0 -> o = Returned r2 s3) /\
  (r1 = 0 -> r2 = 0 ->
   match spi_nor_wait_ready hdr plat fuel s3 with
   | Returned r3 s4 =>
       (r3 <> 0 -> o = Returned r3 s4) /\
       (r3 = 0 ->
        let '((r4, sr'), s5) :=
          spi_nor_read_sr hdr plat (u8 (Z.lor sr SR_QUAD_EN_MX)) s4 in
        o = Returned (if (r4 !=? 0) || negb (Z.testbit sr' 6)
                      then - EINVAL hdr else 0) s5)
   | AssertFailed s4 => o = AssertFailed s4
   | OutOfFuel s4 => o = OutOfFuel s4
   end).
Proof.
  intros E0 Hbit E1 E2 o. subst o.
  unfold spi_nor_macronix_quad_enable, bindO, lift, retO.
  rewrite E0. cbn [negb Z.eqb].
  unfold SR_QUAD_EN_MX. rewrite land_BIT_zero, Hbit by lia. cbn [negb].
  rewrite E1.
  destruct (Z.eqb_spec r1 0) as [->|N1]; cbn [negb].
  2:{ repeat split; intros; try reflexivity; contradiction. }
  fold SR_QUAD_EN_MX. rewrite E2.
  destruct (Z.eqb_spec r2 0) as [->|N2]; cbn [negb].
  2:{ repeat split; intros; try reflexivity; contradiction. }
  split; [intros []; reflexivity|]. split; [intros _ []; reflexivity|].
  intros _ _.
  destruct (spi_nor_wait_ready hdr plat fuel s3) as [r3 s4|s4|s4];
    try reflexivity.
  destruct (Z.eqb_spec r3 0) as [->|N3]; cbn [negb].
  2:{ split; intros; [reflexivity|contradiction]. }
  split; [intros []; reflexivity|]. intros _.
  destruct (spi_nor_read_sr hdr plat _ s4) as [[r4 sr'] s5].
  unfold SR_QUAD_EN_MX. rewrite land_BIT_zero by lia.
  destruct ((r4 !=? 0) || negb (Z.testbit sr' 6)); reflexivity.
Qed.

End QuadEnable.

Lemma macronix_quad_enable_errors_witness :
  spi_nor_read_sr std_headers scripted 0 quad_not_sticking
    = ((0, 0),
       Build_state (nor_dev quad_not_sticking)
         {| replies := [(0, 0); (0, 0); (0, 0x00); (0, 0x00)];
            clock := [false] |}
         [EvExec (read_sr_op std_headers 0) 0]) /\
  Z.testbit 0 6 = false /\
  returned (spi_nor_macronix_quad_enable std_headers scripted 4
              quad_not_sticking) = Some (- EINVAL std_headers).
Proof.
  split; [reflexivity|]. split; [reflexivity|].
  remember (spi_nor_macronix_quad_enable std_headers scripted 4
              quad_not_sticking) as o eqn:Eo.
  pose proof (macronix_quad_enable_errors std_headers scripted 4
                quad_not_sticking _ _ _ _ _ _ _
                eq_refl eq_refl eq_refl eq_refl) as (_ & _ & H3).
  specialize (H3 eq_refl eq_refl). rewrite <- Eo in H3.
  cbv in H3. destruct H3 as [_ H3]. rewrite (H3 eq_refl). reflexivity.
Defined.

(** C4 (as stated) fails: the write-enable command is refused with -5
    and the sequence returns -5, not -EINVAL. *)
Lemma macronix_quad_enable_counterexample :
  returned (spi_nor_macronix_quad_enable std_headers scripted 4
              quad_wren_refused) = Some (-5) /\
  (-5 =? - EINVAL std_headers) = false.
Proof. split; reflexivity. Qed.

(** ** Bank register *)

Section BankRegister.

Context {W : Type}.
Variable hdr : headers.
Variable plat : platform W.

(** C5 (as the code has it).  With the cached bank already 0,
    [spi_nor_clean_bar] does nothing and returns 0.  Otherwise it first
    sets the cached bank to 0, then issues write-enable, then writes
    bank 0 to the bank register with [bank_write_cmd]; it returns the
    code of the first failing step, or of the register write.  The
    cached bank is 0 after every call, whatever the hardware answered. *)
Theorem clean_bar_cache_first (s : state W) :
  let d := nor_dev s in
  let '(r1, _, w1) := spi_mem_exec_op plat (write_en_op hdr) (world s) in
  let '(r2, _, w2) := spi_mem_exec_op plat (write_bank_op hdr d 0) w1 in
  spi_nor_clean_bar hdr plat s =
    (if selected_bank d =? 0 then (0, s)
     else if r1 !=? 0 then
       (r1, Build_state (set_selected_bank 0 d) w1
              (trace s ++ [EvExec (write_en_op hdr) r1]))
     else
       (r2, Build_state (set_selected_bank 0 d) w2
              (trace s ++ [EvExec (write_en_op hdr) r1;
                           EvExec (write_bank_op hdr d 0) r2]))) /\
  selected_bank (nor_dev (snd (spi_nor_clean_bar hdr plat s))) = 0.
Proof.
  cbn zeta.
  unfold spi_nor_clean_bar, spi_nor_write_en, spi_nor_reg.
  fold (write_en_op hdr). fold (write_bank_op hdr (nor_dev s) 0).
  msimpl.
  destruct (spi_mem_exec_op plat (write_en_op hdr) (world s))
    as [[r1 rx1] w1] eqn:E1.
  destruct (spi_mem_exec_op plat (write_bank_op hdr (nor_dev s) 0) w1)
    as [[r2 rx2] w2] eqn:E2.
  destruct (Z.eqb_spec (selected_bank (nor_dev s)) 0) as [Z0|NZ].
  { split; [reflexivity|exact Z0]. }
  msimpl. rewrite E1. msimpl.
  destruct (r1 !=? 0); msimpl.
  { split; reflexivity. }
  unfold write_bank_op in *. rewrite E2. msimpl. rewrite <- app_assoc.
  split; reflexivity.
Qed.

End BankRegister.

(** C5 (as stated) fails: the cached bank is 1 and the write-enable
    command fails; the call returns the error and the cached bank is 0,
    not 1. *)
Lemma clean_bar_cache_counterexample :
  selected_bank (nor_dev bank1_bus_down) = 1 /\
  fst (spi_nor_clean_bar std_headers scripted bank1_bus_down) = -5 /\
  selected_bank
    (nor_dev (snd (spi_nor_clean_bar std_headers scripted bank1_bus_down)))
    = 0.
Proof. repeat split. Qed.

(** ** Software reset *)

Lemma lor_u16 (a b : Z) :
  0 <= a < 2 ^ 16 -> 0 <= b < 2 ^ 16 -> u16 (Z.lor a b) = Z.lor a b.
Proof.
  intros Ha Hb. unfold u16, wrap. apply Z.mod_small.
  assert (0 <= Z.lor a b) as Hn by (apply Z.lor_nonneg; lia).
  split; [assumption|].
  destruct (Z.eq_dec (Z.lor a b) 0) as [->|Hz]; [lia|].
  apply Z.log2_lt_pow2; [lia|].
  rewrite Z.log2_lor by lia.
  destruct (Z.eq_dec a 0) as [->|Ha0]; destruct (Z.eq_dec b 0) as [->|Hb0];
    cbn [Z.log2]; try lia.
  - rewrite Z.max_r by apply Z.log2_nonneg. apply Z.log2_lt_pow2; lia.
  - rewrite Z.max_l by apply Z.log2_nonneg. apply Z.log2_lt_pow2; lia.
  - apply Z.max_lub_lt; apply Z.log2_lt_pow2; lia.
Qed.

Lemma reset_opcode_repeated (c : Z) :
  0 <= c < 256 -> reset_opcode true c = repeated c.
Proof.
  intros Hc. unfold reset_opcode, repeated.
  assert (Z.shiftl c 8 = c * 256) as Hs by (rewrite Z.shiftl_mul_pow2; lia).
  assert (u16 (Z.shiftl c 8) = Z.shiftl c 8) as ->.
  { unfold u16, wrap. apply Z.mod_small. lia. }
  assert (Z.land c 255 = c) as ->.
  { change 255 with (Z.ones 8). rewrite Z.land_ones by lia.
    apply Z.mod_small. lia. }
  apply lor_u16; lia.
Qed.

Section Reset.

Context {W : Type}.
Variable hdr : headers.
Variable plat : platform W.

(** C8.  [spi_nor_reset] does nothing and returns 0 when the read
    template's opcode width is not 2.  Otherwise, with a palindromic read
    opcode, it issues software-reset-enable and then software-reset, each
    a command of 2 opcode bytes, (c << 8) | c, on 8 lines with DTR on
    every phase, no address, no dummy and no data; a command the
    transport rejects ends the call with its code, and after the second
    accepted command the call waits SPI_NOR_SRST_US and returns 0. *)
Theorem spi_nor_reset_repeated (s : state W) :
  0 <= SPI_NOR_OP_SRSTEN hdr < 256 ->
  0 <= SPI_NOR_OP_SRST hdr < 256 ->
  let d := nor_dev s in
  let command (opcode : Z) : spi_mem_op :=
    {| cmd := {| cmd_nbytes := 2;
                 cmd_buswidth := u8 (SPI_MEM_BUSWIDTH_8_LINE hdr);
                 cmd_dtr := true;
                 cmd_opcode := opcode |};
       addr := {| addr_nbytes := 0; addr_buswidth := 0; addr_dtr := true;
                  addr_val := 0 |};
       dummy := {| dummy_nbytes := 0; dummy_buswidth := 0;
                   dummy_dtr := true |};
       data := {| data_buswidth := 0; data_dtr := true;
                  data_dir := SPI_MEM_DATA_OUT; data_nbytes := 0;
                  data_buf := NullBuf |} |} in
  let op1 :=
    command (Z.lor (Z.shiftl (SPI_NOR_OP_SRSTEN hdr) 8)
                   (SPI_NOR_OP_SRSTEN hdr)) in
  let op2 :=
    command (Z.lor (Z.shiftl (SPI_NOR_OP_SRST hdr) 8)
                   (SPI_NOR_OP_SRST hdr)) in
  let '(r1, _, w1) := spi_mem_exec_op plat op1 (world s) in
  let '(r2, _, w2) := spi_mem_exec_op plat op2 w1 in
  (cmd_nbytes (cmd (read_op d)) <> 2 -> spi_nor_reset hdr plat s = (0, s)) /\
  (cmd_nbytes (cmd (read_op d)) = 2 -> palindromic d ->
   spi_nor_reset hdr plat s =
     if r1 !=? 0 then
       (r1, Build_state d w1 (trace s ++ [EvExec op1 r1]))
     else if r2 !=? 0 then
       (r2, Build_state d w2 (trace s ++ [EvExec op1 r1; EvExec op2 r2]))
     else
       (0, Build_state d (udelay plat SPI_NOR_SRST_US w2)
             (trace s ++ [EvExec op1 r1; EvExec op2 r2;
                          EvDelay SPI_NOR_SRST_US]))).
Proof.
  intros H1 H2. cbn zeta.
  destruct (spi_mem_exec_op plat _ (world s)) as [[r1 rx1] w1] eqn:E1.
  destruct (spi_mem_exec_op plat _ w1) as [[r2 rx2] w2] eqn:E2.
  unfold spi_nor_reset. msimpl. split.
  - intros N. destruct (Z.eqb_spec (cmd_nbytes (cmd (read_op (nor_dev s)))) 2);
      [contradiction|reflexivity].
  - intros E P. unfold palindromic in P. rewrite E.
    apply Z.eqb_eq in P. rewrite P. cbn [Z.eqb Pos.eqb negb].
    rewrite !reset_opcode_repeated by assumption.
    unfold reset_op, repeated. msimpl. rewrite E1. msimpl.
    destruct (r1 !=? 0); msimpl; [reflexivity|].
    rewrite E2. msimpl.
    destruct (r2 !=? 0); msimpl; [rewrite <- app_assoc; reflexivity|].
    unfold do_udelay. msimpl. rewrite <- !app_assoc. reflexivity.
Qed.

End Reset.

Lemma spi_nor_reset_repeated_witness :
  let command (opcode : Z) : spi_mem_op :=
    {| cmd := {| cmd_nbytes := 2; cmd_buswidth := 8; cmd_dtr := true;
                 cmd_opcode := opcode |};
       addr := {| addr_nbytes := 0; addr_buswidth := 0; addr_dtr := true;
                  addr_val := 0 |};
       dummy := {| dummy_nbytes := 0; dummy_buswidth := 0;
                   dummy_dtr := true |};
       data := {| data_buswidth := 0; data_dtr := true;
                  data_dir := SPI_MEM_DATA_OUT; data_nbytes := 0;
                  data_buf := NullBuf |} |} in
  palindromic octal_dev /\
  spi_nor_reset std_headers scripted octal_idle =
    (0, Build_state octal_dev (world octal_idle)
          [EvExec (command 0x6666) 0;
           EvExec (command 0x9999) 0;
           EvDelay 100]).
Proof.
  split; [reflexivity|].
  exact (proj2 (spi_nor_reset_repeated std_headers scripted octal_idle
                  ltac:(cbn; lia) ltac:(cbn; lia))
               eq_refl eq_refl).
Defined.

(** ** Initialisation *)

Section Init.

Context {W : Type}.
Variable hdr : headers.
Variable plat : platform W.

Ltac octal_log :=
  cbn [app]; repeat (apply Forall_cons; [cbn; auto|]); apply Forall_nil.

Lemma octal_dtr_enable_effect (s : state W) :
  nor_dev (snd (spi_nor_macronix_octal_dtr_enable hdr plat s)) = nor_dev s /\
  exists evs,
    trace (snd (spi_nor_macronix_octal_dtr_enable hdr plat s))
      = trace s ++ evs /\
    Forall (octal_step hdr) evs.
Proof.
  unfold spi_nor_macronix_octal_dtr_enable, spi_nor_write_en, spi_nor_reg.
  fold (write_en_op hdr). msimpl.
  destruct (spi_mem_exec_op plat (write_en_op hdr) (world s))
    as [[r1 rx1] w1].
  msimpl. destruct (r1 !=? 0); msimpl.
  { split; [reflexivity|]. eexists; split; [reflexivity|]. octal_log. }
  destruct (spi_mem_exec_op plat (octal_op hdr _ _) w1) as [[r2 rx2] w2].
  msimpl. destruct (r2 !=? 0); msimpl.
  { split; [reflexivity|]. eexists; split;
      [rewrite <- app_assoc; reflexivity|].
    octal_log. }
  destruct (spi_mem_exec_op plat (write_en_op hdr) w2) as [[r3 rx3] w3].
  msimpl. destruct (r3 !=? 0); msimpl.
  { split; [reflexivity|]. eexists; split;
      [rewrite <- !app_assoc; reflexivity|].
    octal_log. }
  destruct (spi_mem_exec_op plat (octal_op hdr _ _) w3) as [[r4 rx4] w4].
  msimpl. split; [reflexivity|]. eexists; split;
    [rewrite <- !app_assoc; reflexivity|].
  octal_log.
Qed.

(** C7.  When the platform hook succeeds, the read-ID transaction
    succeeds and the read template has a 2-byte opcode width:
    [spi_nor_init] runs the octal DTR enable sequence only if the command
    bus width is 8 and the ID is Macronix, and returns its result; for
    any other ID, or a command bus width other than 8, it returns
    -EOPNOTSUPP.  In both cases nothing else is issued after read-ID (no
    bank register access, no quad enable) and the descriptor stays as the
    hook left it. *)
Theorem spi_nor_init_two_byte_opcode (fuel : nat) (s : state W) d1 w1 rx w2 :
  plat_get_nor_data plat
    (set_read_op (default_read_op hdr (read_op (nor_dev s))) (nor_dev s))
    (world s) = (0, d1, w1) ->
  size d1 <> 0 ->
  spi_mem_exec_op plat (read_id_op hdr) w1 = (0, rx, w2) ->
  cmd_nbytes (cmd (read_op d1)) = 2 ->
  let s2 := Build_state d1 w2 (trace s ++ [EvExec (read_id_op hdr) 0]) in
  let o := spi_nor_init hdr plat fuel s in
  let e := spi_nor_macronix_octal_dtr_enable hdr plat s2 in
  if (cmd_buswidth (cmd (read_op d1)) =? 8) && (u8 rx =? MACRONIX_ID) then
    o = Returned (fst e, Some (size d1)) (snd e) /\
    nor_dev (snd e) = d1 /\
    exists evs, trace (snd e) = trace s2 ++ evs /\ Forall (octal_step hdr) evs
  else
    o = Returned (- EOPNOTSUPP hdr, Some (size d1)) s2.
Proof.
  intros Eh Hsz Eid Hnb. cbn zeta.
  unfold spi_nor_init, do_plat_get_nor_data, assertO, spi_nor_read_id,
    spi_nor_reg.
  fold (read_id_op hdr). msimpl. rewrite Eh.
  change (0 !=? 0) with false. msimpl.
  destruct (Z.eqb_spec (size d1) 0) as [|_]; [contradiction|]. msimpl.
  rewrite Eid. change (0 !=? 0) with false. msimpl.
  rewrite Hnb. cbn [Z.eqb Pos.eqb].
  destruct (cmd_buswidth (cmd (read_op d1)) =? 8); cbn [andb]; msimpl;
    [|reflexivity].
  destruct (u8 rx =? MACRONIX_ID); msimpl; [|reflexivity].
  match goal with
  | |- context [spi_nor_macronix_octal_dtr_enable hdr plat ?s2] =>
      pose proof (octal_dtr_enable_effect s2) as [D T];
      destruct (spi_nor_macronix_octal_dtr_enable hdr plat s2) as [r s3]
  end.
  cbn [fst snd] in *. repeat split; assumption.
Qed.

End Init.

Lemma spi_nor_init_two_byte_opcode_witness :
  plat_get_nor_data octal_platform
    (set_read_op (default_read_op std_headers
                    (read_op (nor_dev micron_attached)))
                 (nor_dev micron_attached))
    (world micron_attached)
    = (0, octal_dev, world micron_attached) /\
  cmd_nbytes (cmd (read_op octal_dev)) = 2 /\
  spi_nor_init std_headers octal_platform 4 micron_attached =
    Returned (- EOPNOTSUPP std_headers, Some (size octal_dev))
      (Build_state octal_dev {| replies := []; clock := [] |}
         [EvExec (read_id_op std_headers) 0]).
Proof.
  split; [reflexivity|]. split; [reflexivity|].
  exact (spi_nor_init_two_byte_opcode std_headers octal_platform 4
           micron_attached octal_dev (world micron_attached) 0x2C
           {| replies := []; clock := [] |}
           eq_refl ltac:(discriminate) eq_refl eq_refl).
Defined.

(** ** Banked linear read: the steps of one turn *)

Section ReadSteps.

Context {W : Type}.
Variable hdr : headers.
Variable plat : platform W.

Lemma quiet_refl (s : state W) : quiet s s.
Proof.
  repeat split. exists []. rewrite app_nil_r. split; constructor.
Qed.

Lemma quiet_trans (s1 s2 s3 : state W) :
  quiet s1 s2 -> quiet s2 s3 -> quiet s1 s3.
Proof.
  intros (R1 & F1 & Z1 & e1 & T1 & A1) (R2 & F2 & Z2 & e2 & T2 & A2).
  repeat split; try congruence.
  exists (e1 ++ e2). split.
  - rewrite T2, T1, app_assoc. reflexivity.
  - apply Forall_app. split; assumption.
Qed.

Lemma quiet_exec (op : spi_mem_op) (s : state W) :
  quiet s (snd (exec_op plat op s)).
Proof.
  unfold exec_op. destruct (spi_mem_exec_op plat op (world s)) as [[r rx] w].
  repeat split. eexists. split; [reflexivity|]. repeat constructor.
Qed.

Lemma quiet_set_bank (b : Z) (s s' : state W) :
  quiet s s' ->
  quiet s (Build_state (set_selected_bank b (nor_dev s')) (world s') (trace s')).
Proof.
  intros (R & F & Z & e & T & A). repeat split; try assumption.
  exists e. split; assumption.
Qed.

Lemma write_en_quiet (s : state W) :
  quiet s (snd (spi_nor_write_en hdr plat s)).
Proof.
  unfold spi_nor_write_en, spi_nor_reg, bind, ret.
  pose proof (quiet_exec (reg_op hdr (SPI_NOR_OP_WREN hdr) NullBuf 0
                            SPI_MEM_DATA_OUT) s) as Q.
  destruct (exec_op plat _ s) as [[r rx] s1]. exact Q.
Qed.

Lemma clean_bar_effect (s : state W) :
  quiet s (snd (spi_nor_clean_bar hdr plat s)) /\
  selected_bank (nor_dev (snd (spi_nor_clean_bar hdr plat s))) = 0.
Proof.
  unfold spi_nor_clean_bar, bind, get_dev, put_dev, ret.
  destruct (Z.eqb_spec (selected_bank (nor_dev s)) 0) as [Z0|NZ].
  { split; [apply quiet_refl|exact Z0]. }
  cbn [nor_dev world trace].
  set (s0 := Build_state (set_selected_bank 0 (nor_dev s)) (world s) (trace s)).
  assert (quiet s s0) as Q0 by (apply (quiet_set_bank 0 s s), quiet_refl).
  pose proof (write_en_quiet s0) as Q1.
  assert (selected_bank (nor_dev (snd (spi_nor_write_en hdr plat s0))) = 0)
    as B1.
  { unfold spi_nor_write_en, spi_nor_reg, bind, ret, exec_op.
    destruct (spi_mem_exec_op plat _ (world s0)) as [[r rx] w]. reflexivity. }
  destruct (spi_nor_write_en hdr plat s0) as [r1 s1]. cbn [snd] in *.
  destruct (r1 !=? 0); cbn [snd].
  { split; [exact (quiet_trans _ _ _ Q0 Q1)|assumption]. }
  unfold spi_nor_reg.
  pose proof (quiet_exec (reg_op hdr (bank_write_cmd (nor_dev s)) (Local [0]) 1
                            SPI_MEM_DATA_OUT) s1) as Q2.
  assert (nor_dev (snd (exec_op plat
            (reg_op hdr (bank_write_cmd (nor_dev s)) (Local [0]) 1
               SPI_MEM_DATA_OUT) s1)) = nor_dev s1) as D2
    by apply exec_op_effect.
  destruct (exec_op plat _ s1) as [[r2 rx2] s2]. cbn [snd] in *.
  split.
  - exact (quiet_trans _ _ _ Q0 (quiet_trans _ _ _ Q1 Q2)).
  - congruence.
Qed.

Lemma write_bar_effect (offset : Z) (s : state W) :
  quiet s (snd (spi_nor_write_bar hdr plat offset s)) /\
  (fst (spi_nor_write_bar hdr plat offset s) = 0 ->
   selected_bank (nor_dev (snd (spi_nor_write_bar hdr plat offset s)))
   = u8 (offset / BANK_SIZE)).
Proof.
  unfold spi_nor_write_bar, bind, get_dev, put_dev, ret.
  destruct (Z.eqb_spec (u8 (offset / BANK_SIZE)) (selected_bank (nor_dev s)))
    as [E|N].
  { split; [apply quiet_refl|]. intros _. symmetry. exact E. }
  pose proof (write_en_quiet s) as Q1.
  destruct (spi_nor_write_en hdr plat s) as [r1 s1]. cbn [snd] in *.
  destruct (Z.eqb_spec r1 0) as [->|N1]; cbn [negb fst snd].
  2:{ split; [assumption|]. intros; contradiction. }
  unfold spi_nor_reg.
  pose proof (quiet_exec (reg_op hdr (bank_write_cmd (nor_dev s))
                            (Local [u8 (offset / BANK_SIZE)]) 1
                            SPI_MEM_DATA_OUT) s1) as Q2.
  destruct (exec_op plat _ s1) as [[r2 rx2] s2]. cbn [snd] in *.
  destruct (Z.eqb_spec r2 0) as [->|N2]; cbn [negb fst snd nor_dev].
  2:{ split; [exact (quiet_trans _ _ _ Q1 Q2)|]. intros; contradiction. }
  split; [|reflexivity].
  apply (quiet_set_bank _ s s2). exact (quiet_trans _ _ _ Q1 Q2).
Qed.



(** One turn of the loop with bytes left to read: the bank select fails,
    or the bulk read fails, or the chunk is read and the loop goes on. *)
Lemma read_loop_turn (fuel : nat) (length lr : Z) (s : state W) :
  length <> 0 ->
  let n := chunk_len hdr length (nor_dev s) in
  let op := set_data_nbytes n (read_op (nor_dev s)) in
  (exists r s1,
      r <> 0 /\ use_bank hdr (nor_dev s) = true /\ quiet s s1 /\
      read_loop hdr plat (S fuel) length lr s = Returned (r, lr) s1)
  \/ (exists pre post r s3,
      r <> 0 /\ Forall is_exec pre /\ Forall is_exec post /\
      trace s3 = trace s ++ pre ++ EvDirmap op r :: post /\
      read_op (nor_dev s3) = op /\
      selected_bank (nor_dev s3) = 0 /\
      read_loop hdr plat (S fuel) length lr s = Returned (r, lr) s3)
  \/ (exists pre s3,
      Forall is_exec pre /\
      trace s3 = trace s ++ pre ++ [EvDirmap op 0] /\
      read_op (nor_dev s3) = advance_op hdr op /\
      flags (nor_dev s3) = flags (nor_dev s) /\
      size (nor_dev s3) = size (nor_dev s) /\
      read_loop hdr plat (S fuel) length lr s
      = read_loop hdr plat fuel (size_t hdr (length - n))
                  (size_t hdr (lr + n)) s3).
Proof.
  intros Hl. cbn zeta.
  remember (read_loop hdr plat (S fuel) length lr s) as X eqn:EX.
  cbn [read_loop] in EX.
  destruct (Z.eqb_spec length 0) as [|_]; [contradiction|]. cbn [negb] in EX.
  unfold read_chunk_setup, chunk_len in *.
  unfold bind at 1 in EX. unfold get_dev at 1 in EX.
  destruct (use_bank hdr (nor_dev s)) eqn:Eb.
  - (* banked *)
    unfold bind at 1 in EX.
    pose proof (write_bar_effect (u32 (addr_val (addr (read_op (nor_dev s)))))
                  s) as [Q B].
    destruct (spi_nor_write_bar hdr plat _ s) as [r1 s1]. cbn [fst snd] in *.
    destruct (Z.eqb_spec r1 0) as [->|N1]; cbn [negb] in EX.
    2:{ left. exists r1, s1. unfold ret in EX.
        split; [assumption|]. split; [reflexivity|].
        split; [exact Q|exact EX]. }
    right. specialize (B eq_refl).
    destruct Q as (R1 & F1 & Z1 & pre & T1 & A1).
    msimpl_in EX. rewrite B, R1 in EX.
    match type of EX with
    | context [spi_mem_dirmap_read plat ?o (world s1)] =>
        destruct (spi_mem_dirmap_read plat o (world s1)) as [r2 w2]
    end.
    msimpl_in EX. destruct (Z.eqb_spec r2 0) as [->|N2]; cbn [negb] in EX.
    + right. unfold read_advance in EX. msimpl_in EX.
      eexists pre, _. split; [assumption|].
      split; [|split; [|split; [|split; [|exact EX]]]]; cbn;
        try assumption; try reflexivity.
      rewrite T1, <- app_assoc. reflexivity.
    + left.
      match type of EX with
      | context [spi_nor_clean_bar hdr plat ?s2] =>
          pose proof (clean_bar_effect s2)
            as [(R3 & F3 & Z3 & post & T3 & A3) B3];
          destruct (spi_nor_clean_bar hdr plat s2) as [r3 s3]
      end.
      cbn [snd nor_dev trace] in *.
      exists pre, post, r2, s3.
      split; [assumption|]. split; [assumption|]. split; [assumption|].
      split; [|split; [|split; [exact B3|exact EX]]].
      * rewrite T3, T1, <- !app_assoc. reflexivity.
      * rewrite R3. reflexivity.
  - (* direct *)
    right. msimpl_in EX.
    match type of EX with
    | context [spi_mem_dirmap_read plat ?o (world s)] =>
        destruct (spi_mem_dirmap_read plat o (world s)) as [r2 w2]
    end.
    msimpl_in EX. destruct (Z.eqb_spec r2 0) as [->|N2]; cbn [negb] in EX.
    + right. unfold read_advance in EX. msimpl_in EX.
      eexists [], _. split; [constructor|].
      split; [|split; [|split; [|split; [|exact EX]]]]; cbn;
        reflexivity.
    + left.
      match type of EX with
      | context [spi_nor_clean_bar hdr plat ?s2] =>
          pose proof (clean_bar_effect s2)
            as [(R3 & F3 & Z3 & post & T3 & A3) B3];
          destruct (spi_nor_clean_bar hdr plat s2) as [r3 s3]
      end.
      cbn [snd nor_dev trace] in *.
      exists [], post, r2, s3.
      split; [assumption|]. split; [constructor|]. split; [assumption|].
      split; [|split; [|split; [exact B3|exact EX]]].
      * rewrite T3, <- !app_assoc. reflexivity.
      * rewrite R3. reflexivity.
Qed.

(** The turn that finds nothing left to read. *)
Lemma read_loop_done (fuel : nat) (lr : Z) (s : state W) :
  exists r s1,
    quiet s s1 /\
    (use_bank hdr (nor_dev s) = true -> selected_bank (nor_dev s1) = 0) /\
    read_loop hdr plat (S fuel) 0 lr s = Returned (r, lr) s1.
Proof.
  cbn [read_loop]. cbn [Z.eqb negb].
  destruct (use_bank hdr (nor_dev s)).
  - pose proof (clean_bar_effect s) as [Q B].
    destruct (spi_nor_clean_bar hdr plat s) as [r s1]. cbn [snd] in Q, B.
    destruct (Z.eqb_spec r 0) as [->|N]; cbn [negb];
      eexists _, s1; (split; [exact Q|split; [intros _; exact B|reflexivity]]).
  - eexists 0, s. split; [apply quiet_refl|].
    split; [discriminate|reflexivity].
Qed.

End ReadSteps.

(** ** Banked linear read: chunk arithmetic *)

Section ChunkArith.

Variable hdr : headers.

Hypothesis size_t_width : size_t_bits hdr = 32 \/ size_t_bits hdr = 64.

Lemma u32_small (x : Z) : 0 <= x < 2 ^ 32 -> u32 x = x.
Proof. intros. unfold u32, wrap. apply Z.mod_small. assumption. Qed.

Lemma size_t_small (x : Z) : 0 <= x < 2 ^ 32 -> size_t hdr x = x.
Proof.
  intros Hx. unfold size_t, wrap. apply Z.mod_small.
  destruct size_t_width as [-> | ->]; lia.
Qed.

(** The remainder of the bank window, as the loop computes it, bounds the
    chunk exactly as the distance to the window's end does. *)
Lemma remain_len_clamp (a length : Z) :
  0 <= a -> 0 < length -> a + length < 2 ^ 32 ->
  Z.min length
    (size_t hdr (u64 (u32 (BANK_SIZE * (u8 (u32 a / BANK_SIZE) + 1)) - a)))
  = Z.min length (BANK_SIZE * (a / BANK_SIZE + 1) - a).
Proof.
  intros Ha Hl Hcap.
  rewrite (u32_small a) by lia.
  assert (0 <= a / BANK_SIZE < 256) as Hk.
  { split; [apply Z.div_pos; unfold BANK_SIZE; lia|].
    apply Z.div_lt_upper_bound; unfold BANK_SIZE; lia. }
  assert (u8 (a / BANK_SIZE) = a / BANK_SIZE) as ->.
  { unfold u8, wrap. apply Z.mod_small. lia. }
  pose proof (Z.div_mod a BANK_SIZE ltac:(unfold BANK_SIZE; lia)) as Hdm.
  pose proof (Z.mod_pos_bound a BANK_SIZE ltac:(unfold BANK_SIZE; lia)) as Hm.
  set (k := a / BANK_SIZE) in *.
  destruct (Z.eq_dec k 255) as [Ek|Nk].
  - rewrite Ek. change (u32 (BANK_SIZE * (255 + 1))) with 0.
    assert (u64 (0 - a) = 2 ^ 64 - a) as ->.
    { unfold u64, wrap. rewrite <- (Z.mod_add _ 1) by lia.
      replace (0 - a + 1 * 2 ^ 64) with (2 ^ 64 - a) by lia.
      apply Z.mod_small. unfold BANK_SIZE in *. lia. }
    assert (2 ^ 32 - a <= size_t hdr (2 ^ 64 - a)) as Hs.
    { unfold size_t, wrap. destruct size_t_width as [-> | ->].
      - replace (2 ^ 64 - a) with (2 ^ 32 - a + (2 ^ 32 - 1) * 2 ^ 32) by lia.
        rewrite Z.mod_add by lia. rewrite Z.mod_small; lia.
      - rewrite Z.mod_small; lia. }
    unfold BANK_SIZE in *. lia.
  - assert (u32 (BANK_SIZE * (k + 1)) = BANK_SIZE * (k + 1)) as ->.
    { apply u32_small. unfold BANK_SIZE. lia. }
    assert (0 <= BANK_SIZE * (k + 1) - a < 2 ^ 32) as Hr
      by (unfold BANK_SIZE in *; lia).
    assert (u64 (BANK_SIZE * (k + 1) - a) = BANK_SIZE * (k + 1) - a) as ->.
    { unfold u64, wrap. apply Z.mod_small. lia. }
    rewrite size_t_small by assumption. reflexivity.
Qed.

Lemma window_facts (a length : Z) :
  0 <= a -> 0 < length ->
  let n := Z.min length (BANK_SIZE * (a / BANK_SIZE + 1) - a) in
  0 < n <= BANK_SIZE /\
  n <= length /\
  a / BANK_SIZE = (a + n - 1) / BANK_SIZE /\
  (n < length -> (a + n) mod BANK_SIZE = 0 /\ n = BANK_SIZE - a mod BANK_SIZE).
Proof.
  intros Ha Hl n. subst n. unfold BANK_SIZE.
  pose proof (Z.div_mod a 16777216 ltac:(lia)) as Hdm.
  pose proof (Z.mod_pos_bound a 16777216 ltac:(lia)) as Hm.
  set (k := a / 16777216) in *. set (m := a mod 16777216) in *.
  replace (16777216 * (k + 1) - a) with (16777216 - m) by lia.
  split; [lia|]. split; [lia|]. split.
  - apply (Z.div_unique_pos _ _ _ (m + Z.min length (16777216 - m) - 1));
      lia.
  - intros Hlt.
    assert (Z.min length (16777216 - m) = 16777216 - m) as -> by lia.
    split; [|reflexivity].
    replace (a + (16777216 - m)) with (0 + (k + 1) * 16777216) by lia.
    rewrite Z.mod_add by lia. reflexivity.
Qed.

Lemma chunk_len_value (length : Z) (d : nor_device) :
  let a := addr_val (addr (read_op d)) in
  0 <= a -> 0 < length -> a + length < 2 ^ 32 ->
  chunk_len hdr length d =
    if use_bank hdr d
    then Z.min length (BANK_SIZE * (a / BANK_SIZE + 1) - a)
    else length.
Proof.
  intros a Ha Hl Hcap. unfold chunk_len. fold a.
  destruct (use_bank hdr d).
  - rewrite remain_len_clamp by assumption.
    apply u32_small. pose proof (window_facts a length Ha Hl) as (? & ? & _).
    cbn zeta in *. lia.
  - apply u32_small. lia.
Qed.

End ChunkArith.

(** Without any assumption on the address or on the width of [size_t]:
    the chunk is never longer than what is left. *)
Lemma chunk_len_bounds (hdr : headers) (length : Z) (d : nor_device) :
  0 <= length -> 0 < 2 ^ size_t_bits hdr ->
  0 <= chunk_len hdr length d <= length.
Proof.
  intros Hl Hb. unfold chunk_len.
  assert (forall x, 0 <= x -> 0 <= u32 x <= x) as Hu.
  { intros x Hx. unfold u32, wrap. split.
    - apply Z.mod_pos_bound. lia.
    - apply Z.mod_le; lia. }
  destruct (use_bank hdr d).
  - match goal with
    | |- context [size_t hdr ?y] =>
        assert (0 <= size_t hdr y) as Hs
          by (unfold size_t, wrap; apply Z.mod_pos_bound; exact Hb);
        set (m := size_t hdr y) in *
    end.
    specialize (Hu (Z.min length m) ltac:(lia)). lia.
  - specialize (Hu length Hl). lia.
Qed.

(** ** Banked linear read: the whole call *)

Lemma bytes_completed_app (l1 l2 : list event) :
  bytes_completed (l1 ++ l2) = bytes_completed l1 + bytes_completed l2.
Proof.
  induction l1 as [|e l1 IH]; [reflexivity|].
  destruct e; cbn [app bytes_completed]; rewrite IH; lia.
Qed.

Lemma bytes_completed_exec (l : list event) :
  Forall is_exec l -> bytes_completed l = 0.
Proof.
  induction 1 as [|e l He Hl IH]; [reflexivity|].
  destruct e; cbn in He; try contradiction. exact IH.
Qed.

Lemma bytes_completed_none (l : list event) :
  none_completed l -> bytes_completed l = 0.
Proof.
  induction 1 as [|e l He Hl IH]; [reflexivity|].
  destruct e; cbn [bytes_completed]; try exact IH.
  destruct (Z.eqb_spec ret0 0); [contradiction|]. lia.
Qed.

Lemma chunks_ok_exec_app (a rem : Z) (pre l : list event) :
  Forall is_exec pre -> chunks_ok a rem l -> chunks_ok a rem (pre ++ l).
Proof.
  induction 1 as [|e pre He Hpre IH]; intros Hl; [exact Hl|].
  destruct e; cbn in He; try contradiction. cbn. apply IH, Hl.
Qed.

Lemma chunks_ok_exec (a rem : Z) (l : list event) :
  Forall is_exec l -> chunks_ok a rem l.
Proof.
  intros Hl. rewrite <- (app_nil_r l). apply chunks_ok_exec_app; [exact Hl|].
  exact I.
Qed.

Section Read.

Context {W : Type}.
Variable hdr : headers.
Variable plat : platform W.

Lemma read_loop_frame (fuel : nat) (length lr : Z) (s : state W) :
  template_fixed
    (read_op (nor_dev (final_state (read_loop hdr plat fuel length lr s))))
  = template_fixed (read_op (nor_dev s)).
Proof.
  revert length lr s. induction fuel as [|fuel IH]; intros length lr s.
  { reflexivity. }
  destruct (Z.eq_dec length 0) as [->|Hl].
  { destruct (read_loop_done hdr plat fuel lr s) as (r & s1 & Q & _ & ->).
    cbn [final_state]. destruct Q as (-> & _). reflexivity. }
  destruct (read_loop_turn hdr plat fuel length lr s Hl)
    as [(r & s1 & _ & _ & Q & ->)
       |[(pre & post & r & s3 & _ & _ & _ & _ & R & _ & ->)
        |(pre & s3 & _ & _ & R & _ & _ & ->)]].
  - cbn [final_state]. destruct Q as (-> & _). reflexivity.
  - cbn [final_state]. rewrite R. reflexivity.
  - rewrite IH, R. reflexivity.
Qed.

(** C9.  Whatever the transport answers and however the call ends, the
    read template differs after [spi_nor_read] from what it was before
    at most in its address value, data buffer pointer and data byte
    count: the command (opcode, opcode width, bus width, DTR), the
    address width and bus width, the dummy phase and the data bus width
    and direction are the same. *)
Theorem spi_nor_read_frame (fuel : nat) (offset buffer length : Z)
    (s : state W) :
  template_fixed
    (read_op (nor_dev (final_state
       (spi_nor_read hdr plat fuel offset buffer length s))))
  = template_fixed (read_op (nor_dev s)).
Proof.
  unfold spi_nor_read, put_dev. rewrite read_loop_frame. reflexivity.
Qed.

Lemma read_loop_length_read (fuel : nat) (length lr : Z) (s : state W) :
  0 <= length -> 0 <= lr -> lr + length < 2 ^ size_t_bits hdr ->
  match read_loop hdr plat fuel length lr s with
  | Returned (r, lr') s' =>
      exists evs,
        trace s' = trace s ++ evs /\
        lr' = lr + bytes_completed evs /\
        (r = 0 -> lr' = lr + length)
  | AssertFailed _ => False
  | OutOfFuel _ => True
  end.
Proof.
  revert length lr s. induction fuel as [|fuel IH]; intros length lr s Hl Hr Hb.
  { exact I. }
  destruct (Z.eq_dec length 0) as [->|Hn].
  { destruct (read_loop_done hdr plat fuel lr s)
      as (r & s1 & (_ & _ & _ & evs & T & A) & _ & ->).
    exists evs. rewrite (bytes_completed_exec evs A).
    split; [exact T|]. split; lia. }
  destruct (read_loop_turn hdr plat fuel length lr s Hn)
    as [(r & s1 & N & _ & (_ & _ & _ & evs & T & A) & ->)
       |[(pre & post & r & s3 & N & A1 & A2 & T & _ & _ & ->)
        |(pre & s3 & A & T & R & _ & _ & ->)]].
  - exists evs. rewrite (bytes_completed_exec evs A).
    split; [exact T|]. split; [lia|]. intros; contradiction.
  - exists (pre ++ EvDirmap
              (set_data_nbytes (chunk_len hdr length (nor_dev s))
                 (read_op (nor_dev s))) r :: post).
    split; [exact T|]. split; [|intros; contradiction].
    rewrite bytes_completed_app, (bytes_completed_exec pre A1).
    cbn [bytes_completed]. rewrite (bytes_completed_exec post A2).
    destruct (Z.eqb_spec r 0); [contradiction|]. lia.
  - pose proof (chunk_len_bounds hdr length (nor_dev s) Hl ltac:(lia)) as Hc.
    set (n := chunk_len hdr length (nor_dev s)) in *.
    assert (size_t hdr (length - n) = length - n) as ->
      by (unfold size_t, wrap; apply Z.mod_small; lia).
    assert (size_t hdr (lr + n) = lr + n) as ->
      by (unfold size_t, wrap; apply Z.mod_small; lia).
    specialize (IH (length - n) (lr + n) s3
                  ltac:(lia) ltac:(lia) ltac:(lia)).
    destruct (read_loop hdr plat fuel (length - n) (lr + n) s3)
      as [[r lr'] s'|s'|s']; try assumption.
    destruct IH as (evs & T' & L & Z0).
    exists (pre ++ [EvDirmap (set_data_nbytes n (read_op (nor_dev s))) 0]
              ++ evs).
    split; [rewrite T', T, <- !app_assoc; reflexivity|].
    rewrite !bytes_completed_app, (bytes_completed_exec pre A).
    cbn [bytes_completed set_data_nbytes data data_nbytes Z.eqb].
    split; [lia|]. intros E. specialize (Z0 E). lia.
Qed.

(** Where a returning read leaves the cached bank: at 0, unless the
    call failed although no bulk read did. *)
Lemma all_completed_exec (evs : list event) :
  Forall is_exec evs -> all_completed evs.
Proof.
  apply Forall_impl. intros [] He; cbn in He; try contradiction; exact I.
Qed.

Lemma read_loop_bank_after (fuel : nat) (length lr : Z) (s : state W) :
  use_bank hdr (nor_dev s) = true ->
  match read_loop hdr plat fuel length lr s with
  | Returned (r, _) s' =>
      selected_bank (nor_dev s') = 0
      \/ (r <> 0 /\
          exists evs, trace s' = trace s ++ evs /\ all_completed evs)
  | AssertFailed _ => False
  | OutOfFuel _ => True
  end.
Proof.
  revert length lr s. induction fuel as [|fuel IH]; intros length lr s Hb.
  { exact I. }
  destruct (Z.eq_dec length 0) as [->|Hn].
  { destruct (read_loop_done hdr plat fuel lr s) as (r & s1 & _ & B & ->).
    left. exact (B Hb). }
  destruct (read_loop_turn hdr plat fuel length lr s Hn)
    as [(r & s1 & N & _ & (_ & _ & _ & evs & T & A) & ->)
       |[(pre & post & r & s3 & _ & _ & _ & _ & _ & B & ->)
        |(pre & s3 & A & T & _ & F & _ & ->)]].
  - right. split; [exact N|]. exists evs.
    split; [exact T|apply all_completed_exec, A].
  - left. exact B.
  - match goal with
    | |- match read_loop hdr plat fuel ?l ?r s3 with _ => _ end =>
        specialize (IH l r s3); destruct (read_loop hdr plat fuel l r s3)
          as [[r' lr'] s'|s'|s']
    end; try exact I.
    + destruct IH as [B|(N & evs & T' & C)].
      * unfold use_bank in *. rewrite F. exact Hb.
      * left. exact B.
      * right. split; [exact N|]. eexists.
        split; [rewrite T', T, <- !app_assoc; reflexivity|].
        apply Forall_app. split; [apply all_completed_exec, A|].
        apply Forall_app. split; [repeat constructor|exact C].
    + apply IH. unfold use_bank in *. rewrite F. exact Hb.
Qed.

Section InRange.

Hypothesis size_t_width : size_t_bits hdr = 32 \/ size_t_bits hdr = 64.

Lemma read_loop_returns (fuel : nat) (length lr : Z) (s : state W) :
  let a := addr_val (addr (read_op (nor_dev s))) in
  0 <= a -> 0 <= length -> a + length < 2 ^ 32 ->
  (length = 0 /\ (1 <= fuel)%nat
   \/ length + a mod BANK_SIZE <= (Z.of_nat fuel - 1) * BANK_SIZE) ->
  exists res s', read_loop hdr plat fuel length lr s = Returned res s'.
Proof.
  revert length lr s. induction fuel as [|fuel IH];
    intros length lr s a Ha Hl Hcap Hf.
  { exfalso. pose proof (Z.mod_pos_bound a BANK_SIZE ltac:(reflexivity)).
    unfold BANK_SIZE in *. lia. }
  destruct (Z.eq_dec length 0) as [->|Hn].
  { destruct (read_loop_done hdr plat fuel lr s) as (r & s1 & _ & _ & ->).
    eauto. }
  destruct (read_loop_turn hdr plat fuel length lr s Hn)
    as [(r & s1 & _ & _ & _ & ->)
       |[(pre & post & r & s3 & _ & _ & _ & _ & _ & _ & ->)
        |(pre & s3 & _ & _ & R & _ & _ & ->)]]; eauto.
  pose proof (chunk_len_value hdr size_t_width length (nor_dev s)
                Ha ltac:(lia) Hcap) as Hc.
  fold a in Hc.
  pose proof (window_facts a length Ha ltac:(lia)) as (Hn1 & Hn2 & _ & Hn3).
  cbn zeta in *.
  set (n := chunk_len hdr length (nor_dev s)) in *.
  assert (0 < n <= length /\
          (n < length -> (a + n) mod BANK_SIZE = 0 /\
                         n = BANK_SIZE - a mod BANK_SIZE)) as (Hn4 & Hn5).
  { destruct (use_bank hdr (nor_dev s)); rewrite Hc; [tauto|]. lia. }
  rewrite (size_t_small hdr size_t_width (length - n)) by lia.
  apply IH; rewrite ?R; cbn [advance_op set_data_buf set_addr_val addr addr_val
                             set_data_nbytes data data_nbytes]; fold a.
  - unfold u64, wrap. apply Z.mod_pos_bound. lia.
  - lia.
  - unfold u64, wrap. rewrite (Z.mod_small (a + n) (2 ^ 64)) by lia. lia.
  - unfold u64, wrap. rewrite (Z.mod_small (a + n) (2 ^ 64)) by lia.
    pose proof (Z.mod_pos_bound a BANK_SIZE ltac:(reflexivity)).
    destruct (Z.eq_dec n length) as [E|E].
    + left. split; [lia|]. unfold BANK_SIZE in *. lia.
    + right. destruct (Hn5 ltac:(lia)) as [-> Hn6]. unfold BANK_SIZE in *. lia.
Qed.

Lemma read_loop_chunks (fuel : nat) (length lr : Z) (s : state W) :
  let a := addr_val (addr (read_op (nor_dev s))) in
  use_bank hdr (nor_dev s) = true ->
  0 <= a -> 0 <= length -> a + length < 2 ^ 32 ->
  exists evs,
    trace (final_state (read_loop hdr plat fuel length lr s))
      = trace s ++ evs /\
    chunks_ok a length evs.
Proof.
  revert length lr s. induction fuel as [|fuel IH];
    intros length lr s a Hb Ha Hl Hcap.
  { exists []. rewrite app_nil_r. split; [reflexivity|exact I]. }
  destruct (Z.eq_dec length 0) as [->|Hn].
  { destruct (read_loop_done hdr plat fuel lr s)
      as (r & s1 & (_ & _ & _ & evs & T & A) & _ & ->).
    exists evs. split; [exact T|apply chunks_ok_exec, A]. }
  pose proof (chunk_len_value hdr size_t_width length (nor_dev s)
                Ha ltac:(lia) Hcap) as Hc.
  fold a in Hc. rewrite Hb in Hc.
  pose proof (window_facts a length Ha ltac:(lia)) as (Hn1 & Hn2 & Hn3 & _).
  cbn zeta in *.
  destruct (read_loop_turn hdr plat fuel length lr s Hn)
    as [(r & s1 & _ & _ & (_ & _ & _ & evs & T & A) & ->)
       |[(pre & post & r & s3 & _ & A1 & A2 & T & _ & _ & ->)
        |(pre & s3 & A & T & R & F & _ & ->)]].
  - exists evs. split; [exact T|apply chunks_ok_exec, A].
  - eexists. split; [exact T|]. apply chunks_ok_exec_app; [exact A1|].
    cbn [chunks_ok set_data_nbytes data data_nbytes addr]. fold a.
    rewrite Hc. repeat split; try lia; try assumption.
    apply chunks_ok_exec, A2.
  - set (n := chunk_len hdr length (nor_dev s)) in *.
    rewrite (size_t_small hdr size_t_width (length - n)) by lia.
    assert (addr_val (addr (read_op (nor_dev s3))) = a + n) as Ea.
    { rewrite R. cbn [advance_op set_data_buf set_addr_val addr addr_val
                      set_data_nbytes data data_nbytes].
      fold a. unfold u64, wrap. apply Z.mod_small. lia. }
    destruct (IH (length - n) (size_t hdr (lr + n)) s3) as (evs & T' & C).
    + unfold use_bank in *. rewrite F. exact Hb.
    + rewrite Ea. lia.
    + lia.
    + rewrite Ea. lia.
    + rewrite Ea in C.
      exists (pre ++ [EvDirmap (set_data_nbytes n (read_op (nor_dev s))) 0]
                ++ evs).
      split; [rewrite T', T, <- !app_assoc; reflexivity|].
      apply chunks_ok_exec_app; [exact A|].
      cbn [app chunks_ok set_data_nbytes data data_nbytes addr]. fold a.
      rewrite Hc in *. repeat split; try lia; try assumption.
Qed.

(** C1.  With bank switching enabled and the range [offset, offset +
    length) inside the declared capacity (which fits 32 bits), the bulk
    reads that [spi_nor_read] issues, however the call ends, start at
    [offset], follow one another without gap, and each is as long as the
    smaller of the bytes still to read and the bytes from its address to
    the end of its bank window: none crosses a BANK_SIZE-aligned
    boundary.  With 258 units of fuel the call returns. *)
Theorem spi_nor_read_no_window_crossing (fuel : nat)
    (offset buffer length : Z) (s : state W) :
  use_bank hdr (nor_dev s) = true ->
  0 <= offset -> 0 <= length ->
  offset + length <= size (nor_dev s) -> size (nor_dev s) < 2 ^ 32 ->
  let o := spi_nor_read hdr plat fuel offset buffer length s in
  (exists evs,
      trace (final_state o) = trace s ++ evs /\
      chunks_ok offset length evs) /\
  ((258 <= fuel)%nat -> exists res s', o = Returned res s').
Proof.
  intros Hb Ho Hl Hcap Hsz. cbn zeta. unfold spi_nor_read, put_dev.
  set (s1 := Build_state _ (world s) (trace s)).
  assert (addr_val (addr (read_op (nor_dev s1))) = offset) as Ea
    by reflexivity.
  split.
  - destruct (read_loop_chunks fuel length 0 s1) as (evs & T & C);
      rewrite ?Ea; try assumption; try lia.
    exists evs. split; assumption.
  - intros Hf. apply read_loop_returns; rewrite ?Ea; try assumption; try lia.
    right. pose proof (Z.mod_pos_bound offset BANK_SIZE ltac:(reflexivity)).
    unfold BANK_SIZE in *. lia.
Qed.

End InRange.

(** C10.  [spi_nor_read] starts with 0 bytes read; when it returns, with
    success or with an error, the byte count it reports is the total
    length of the bulk reads that returned 0 during the call: 0 if none
    did, and the requested length if the call returns 0.  With 258 units
    of fuel a call whose range ends below 2^32 returns. *)
Theorem spi_nor_read_length_read (offset buffer length : Z) (s : state W) :
  0 <= length < 2 ^ size_t_bits hdr ->
  (forall fuel,
      match spi_nor_read hdr plat fuel offset buffer length s with
      | Returned (r, lr) s' =>
          exists evs,
            trace s' = trace s ++ evs /\
            lr = bytes_completed evs /\
            (none_completed evs -> lr = 0) /\
            (r = 0 -> lr = length)
      | AssertFailed _ => False
      | OutOfFuel _ => True
      end) /\
  (forall fuel,
      (258 <= fuel)%nat ->
      size_t_bits hdr = 32 \/ size_t_bits hdr = 64 ->
      0 <= offset -> offset + length < 2 ^ 32 ->
      exists res s',
        spi_nor_read hdr plat fuel offset buffer length s = Returned res s').
Proof.
  intros Hl. unfold spi_nor_read, put_dev.
  set (s1 := Build_state _ (world s) (trace s)).
  split.
  - intros fuel.
    pose proof (read_loop_length_read fuel length 0 s1
                  ltac:(lia) ltac:(lia) ltac:(lia)) as L.
    destruct (read_loop hdr plat fuel length 0 s1) as [[r lr] s'|s'|s'];
      try assumption.
    destruct L as (evs & T & B & Z0). exists evs.
    split; [exact T|]. split; [lia|]. split; [|intros E; specialize (Z0 E); lia].
    intros N. rewrite (bytes_completed_none evs N) in B. lia.
  - intros fuel Hf Hw Ho Hcap.
    apply read_loop_returns; try assumption; cbn; try lia.
    right. pose proof (Z.mod_pos_bound offset BANK_SIZE ltac:(reflexivity)).
    unfold BANK_SIZE in *. lia.
Qed.

End Read.

(** The scenario of the specification: 4 MiB read from offset 15 MiB of
    a 32 MiB banked device give a bulk read of 1 MiB ending at the
    boundary of banks 0 and 1, a bank select, a bulk read of 3 MiB in
    bank 1 and the bank select back to 0. *)
Example read_across_banks :
  let d := nor_dev two_banks in
  let op a n :=
    set_data_nbytes n (set_data_buf (Addr (a - 0xF00000))
                         (set_addr_val a std_read_op)) in
  returned (spi_nor_read std_headers scripted 8 0xF00000 0 0x400000 two_banks)
    = Some (0, 0x400000) /\
  trace (final_state
           (spi_nor_read std_headers scripted 8 0xF00000 0 0x400000 two_banks))
    = [EvDirmap (op 0xF00000 0x100000) 0;
       EvExec (write_en_op std_headers) 0;
       EvExec (write_bank_op std_headers d 1) 0;
       EvDirmap (op 0x1000000 0x300000) 0;
       EvExec (write_en_op std_headers) 0;
       EvExec (write_bank_op std_headers d 0) 0].
Proof. split; vm_compute; reflexivity. Qed.

Lemma spi_nor_read_no_window_crossing_witness :
  use_bank std_headers (nor_dev two_banks) = true /\
  0xF00000 + 0x400000 <= size (nor_dev two_banks) /\
  (exists evs,
      trace (final_state
               (spi_nor_read std_headers scripted 300 0xF00000 0 0x400000
                  two_banks)) = trace two_banks ++ evs /\
      chunks_ok 0xF00000 0x400000 evs).
Proof.
  split; [reflexivity|]. split; [cbn; lia|].
  exact (proj1 (spi_nor_read_no_window_crossing std_headers scripted
                  (or_introl eq_refl) 300 0xF00000 0 0x400000 two_banks
                  eq_refl ltac:(lia) ltac:(lia)
                  ltac:(cbn; lia) ltac:(cbn; lia))).
Defined.

Lemma spi_nor_read_length_read_witness :
  match spi_nor_read std_headers scripted 8 0xF00000 0 0x400000
          two_banks_read_fails with
  | Returned (r, lr) s' =>
      exists evs,
        trace s' = trace two_banks_read_fails ++ evs /\
        lr = bytes_completed evs /\
        (none_completed evs -> lr = 0) /\
        (r = 0 -> lr = 0x400000)
  | AssertFailed _ => False
  | OutOfFuel _ => True
  end.
Proof.
  exact (proj1 (spi_nor_read_length_read std_headers scripted
                  0xF00000 0 0x400000 two_banks_read_fails
                  ltac:(cbn; lia)) 8%nat).
Defined.

(** The call of the witness reports the 1 MiB read before the failure. *)
Example read_fails_midway :
  returned (spi_nor_read std_headers scripted 8 0xF00000 0 0x400000
              two_banks_read_fails) = Some (-5, 0x100000).
Proof. vm_compute. reflexivity. Qed.

(** C2 fails on the code.  A read that crosses from bank 1 into bank 2:
    the first chunk is read with bank 1 selected, then the write-enable
    of the next bank select fails and [spi_nor_read] returns that error
    at once, without [spi_nor_clean_bar]: the cached bank is 1, not 0. *)
Theorem spi_nor_read_leaves_bank_selected :
  use_bank std_headers (nor_dev bank_select_fails) = true /\
  returned (spi_nor_read std_headers scripted 8 0x1FFFFFF 0 2
              bank_select_fails) = Some (-5, 1) /\
  selected_bank
    (nor_dev (final_state
       (spi_nor_read std_headers scripted 8 0x1FFFFFF 0 2 bank_select_fails)))
  = 1.
Proof. repeat split; vm_compute; reflexivity. Qed.

(** ** Bank register: further properties *)

Section BankExtra.

Context {W : Type}.
Variable hdr : headers.
Variable plat : platform W.

(** X1.  [spi_nor_write_bar] changes nothing of the descriptor but the
    cached bank, and that only when it returns 0: the cache then holds
    the bank of [offset]; after a failed write-enable or register write
    the descriptor is as before the call. *)
Theorem write_bar_cache_update (offset : Z) (s : state W) :
  let r := fst (spi_nor_write_bar hdr plat offset s) in
  let s' := snd (spi_nor_write_bar hdr plat offset s) in
  nor_dev s' =
    if r =? 0 then set_selected_bank (u8 (offset / BANK_SIZE)) (nor_dev s)
    else nor_dev s.
Proof.
  cbn zeta. unfold spi_nor_write_bar, spi_nor_write_en, spi_nor_reg. msimpl.
  destruct (Z.eqb_spec (u8 (offset / BANK_SIZE)) (selected_bank (nor_dev s)))
    as [E|N].
  { msimpl. rewrite E. destruct (nor_dev s). reflexivity. }
  msimpl. destruct (spi_mem_exec_op plat _ (world s)) as [[r1 rx1] w1].
  msimpl. destruct (Z.eqb_spec r1 0) as [->|N1]; msimpl.
  2:{ destruct (Z.eqb_spec r1 0); [contradiction|reflexivity]. }
  destruct (spi_mem_exec_op plat _ w1) as [[r2 rx2] w2].
  msimpl. destruct (Z.eqb_spec r2 0) as [->|N2]; msimpl.
  - reflexivity.
  - destruct (Z.eqb_spec r2 0); [contradiction|reflexivity].
Qed.

(** X2.  Bank selection is idempotent: after a call of
    [spi_nor_write_bar] that returned 0, a call for any offset of the
    same bank returns 0 and neither issues a transaction nor changes the
    state. *)
Theorem write_bar_idempotent (offset offset' : Z) (s : state W) :
  fst (spi_nor_write_bar hdr plat offset s) = 0 ->
  u8 (offset' / BANK_SIZE) = u8 (offset / BANK_SIZE) ->
  spi_nor_write_bar hdr plat offset'
    (snd (spi_nor_write_bar hdr plat offset s))
  = (0, snd (spi_nor_write_bar hdr plat offset s)).
Proof.
  intros H0 Hb.
  destruct (write_bar_effect hdr plat offset s) as [_ B]. specialize (B H0).
  destruct (spi_nor_write_bar hdr plat offset s) as [r s1].
  cbn [fst snd] in *.
  unfold spi_nor_write_bar. msimpl. rewrite Hb, <- B, Z.eqb_refl. reflexivity.
Qed.

(** X3.  After [spi_nor_clean_bar], whatever it returned, a second call
    is a no-op: it returns 0 without any transaction. *)
Theorem clean_bar_twice (s : state W) :
  spi_nor_clean_bar hdr plat (snd (spi_nor_clean_bar hdr plat s))
  = (0, snd (spi_nor_clean_bar hdr plat s)).
Proof.
  destruct (clean_bar_effect hdr plat s) as [_ B].
  destruct (spi_nor_clean_bar hdr plat s) as [r s1]. cbn [snd] in *.
  unfold spi_nor_clean_bar. msimpl. rewrite B. reflexivity.
Qed.

End BankExtra.

Lemma write_bar_idempotent_witness :
  fst (spi_nor_write_bar std_headers scripted 0x1000000 two_banks) = 0 /\
  spi_nor_write_bar std_headers scripted 0x1FFFFFF
    (snd (spi_nor_write_bar std_headers scripted 0x1000000 two_banks))
  = (0, snd (spi_nor_write_bar std_headers scripted 0x1000000 two_banks)).
Proof.
  split; [reflexivity|].
  exact (write_bar_idempotent std_headers scripted 0x1000000 0x1FFFFFF
           two_banks eq_refl eq_refl).
Defined.

(** ** Capability enablement: further properties *)

Section EnableExtra.

Context {W : Type}.
Variable hdr : headers.
Variable plat : platform W.

(** X4.  The Macronix quad enable is idempotent: when the first status
    read fails, or succeeds and shows the quad-enable bit (bit 6) set,
    the function returns that read's code (0 in the second case) after
    this single transaction: nothing is written to the device. *)
Theorem macronix_quad_enable_short_circuit (fuel : nat) (s : state W)
    r0 rx w1 :
  spi_mem_exec_op plat (read_sr_op hdr 0) (world s) = (r0, rx, w1) ->
  r0 <> 0 \/ Z.testbit (u8 rx) 6 = true ->
  spi_nor_macronix_quad_enable hdr plat fuel s =
    Returned r0 (Build_state (nor_dev s) w1
                   (trace s ++ [EvExec (read_sr_op hdr 0) r0])).
Proof.
  intros E0 Hc.
  unfold spi_nor_macronix_quad_enable, spi_nor_read_sr, spi_nor_reg.
  fold (read_sr_op hdr 0). msimpl. rewrite E0. msimpl.
  destruct (Z.eqb_spec r0 0) as [->|N0]; msimpl; [|reflexivity].
  destruct Hc as [Hc|Hc]; [contradiction|].
  unfold SR_QUAD_EN_MX. rewrite land_BIT_zero, Hc by lia. reflexivity.
Qed.

(** X5.  The Spansion-style quad enable, with the quad bit (bit 1 of the
    configuration register) found clear: the status register is read
    and written back unchanged together with the configuration register
    with the bit set, in one 2-byte write ([EINVAL] being a positive
    number).  A failing status read,
    write-enable or wait-ready ends the sequence with its own code; a
    failing 2-byte write gives -EINVAL, and so does a failing verifying
    re-read of the configuration register or one with the bit still
    clear. *)
Theorem quad_enable_errors (fuel : nat) (s : state W) cr s1 r_sr sr s2 :
  0 < EINVAL hdr ->
  spi_nor_read_cr hdr plat 0 s = ((0, cr), s1) ->
  Z.testbit cr 1 = false ->
  spi_nor_read_sr hdr plat 0 s1 = ((r_sr, sr), s2) ->
  let cr1 := u8 (Z.lor cr CR_QUAD_EN_SPAN) in
  let o := spi_nor_quad_enable hdr plat fuel s in
  let '(r1, s3) := spi_nor_write_en hdr plat s2 in
  let '((r2, _), s4) := exec_op plat (write_sr_cr_op hdr sr cr1) s3 in
  (r_sr <> 0 -> o = Returned r_sr s2) /\
  (r_sr = 0 -> r1 <> 0 -> o = Returned r1 s3) /\
  (r_sr = 0 -> r1 = 0 -> r2 <> 0 -> o = Returned (- EINVAL hdr) s4) /\
  (r_sr = 0 -> r1 = 0 -> r2 = 0 ->
   match spi_nor_wait_ready hdr plat fuel s4 with
   | Returned r3 s5 =>
       (r3 <> 0 -> o = Returned r3 s5) /\
       (r3 = 0 ->
        let '((r4, cr'), s6) := spi_nor_read_cr hdr plat cr1 s5 in
        o = Returned (if (r4 !=? 0) || negb (Z.testbit cr' 1)
                      then - EINVAL hdr else 0) s6)
   | AssertFailed s5 => o = AssertFailed s5
   | OutOfFuel s5 => o = OutOfFuel s5
   end).
Proof.
  intros Herr E0 Hbit E1. cbn zeta.
  assert ((Z.land cr CR_QUAD_EN_SPAN !=? 0) = false) as Hz.
  { unfold CR_QUAD_EN_SPAN. rewrite land_BIT_zero, Hbit by lia. reflexivity. }
  unfold spi_nor_quad_enable, spi_nor_write_sr_cr, bindO, lift, retO.
  rewrite E0. cbn [negb Z.eqb]. rewrite Hz. rewrite E1.
  destruct (spi_nor_write_en hdr plat s2) as [r1 s3] eqn:E2.
  unfold spi_nor_reg. fold (write_sr_cr_op hdr sr (u8 (Z.lor cr CR_QUAD_EN_SPAN))).
  destruct (exec_op plat _ s3) as [[r2 rx2] s4] eqn:E3.
  destruct (Z.eqb_spec r_sr 0) as [->|Ns]; cbn [negb].
  2:{ repeat split; intros; try reflexivity; contradiction. }
  rewrite E2.
  destruct (Z.eqb_spec r1 0) as [->|N1]; cbn [negb].
  2:{ destruct (Z.eqb_spec r1 0); [contradiction|]. cbn [negb].
      repeat split; intros; try reflexivity; contradiction. }
  rewrite E3.
  destruct (Z.eqb_spec r2 0) as [->|N2]; cbn [negb].
  2:{ destruct (Z.eqb_spec (- EINVAL hdr) 0) as [Ez|Ez]; [lia|]. cbn [negb].
      repeat split; intros; try reflexivity; contradiction. }
  split; [intros []; reflexivity|]. split; [intros _ []; reflexivity|].
  split; [intros _ _ []; reflexivity|]. intros _ _ _.
  destruct (spi_nor_wait_ready hdr plat fuel s4) as [r3 s5|s5|s5];
    try reflexivity.
  destruct (Z.eqb_spec r3 0) as [->|N3]; cbn [negb].
  2:{ destruct (Z.eqb_spec r3 0); [contradiction|]. cbn [negb].
      split; intros; [reflexivity|contradiction]. }
  cbn [Z.eqb negb].
  split; [intros []; reflexivity|]. intros _.
  destruct (spi_nor_read_cr hdr plat _ s5) as [[r4 cr'] s6].
  unfold CR_QUAD_EN_SPAN. rewrite land_BIT_zero by lia.
  destruct ((r4 !=? 0) || negb (Z.testbit cr' 1)); reflexivity.
Qed.

(** X6.  The Macronix octal DTR enable issues, in this order,
    write-enable, the write of the dummy-cycle value to CR2, write-enable
    again and the write of the DTR-enable value to CR2.  A CR2 write is
    the one-byte command WR_CR2 on one line, followed by the 4-byte
    register address and one data byte sent, the value.  The first
    transaction that fails ends the sequence with its code, and the
    result of a complete sequence is the code of the last write.  No
    register is read back. *)
Theorem octal_dtr_enable_sequence (s : state W) :
  let line := u8 (SPI_MEM_BUSWIDTH_1_LINE hdr) in
  let wen : spi_mem_op :=
    {| cmd := {| cmd_nbytes := 1; cmd_buswidth := line; cmd_dtr := false;
                 cmd_opcode := u8 (SPI_NOR_OP_WREN hdr) |};
       addr := {| addr_nbytes := 0; addr_buswidth := 0; addr_dtr := false;
                  addr_val := 0 |};
       dummy := {| dummy_nbytes := 0; dummy_buswidth := 0;
                   dummy_dtr := false |};
       data := {| data_buswidth := line; data_dtr := false;
                  data_dir := SPI_MEM_DATA_OUT; data_nbytes := 0;
                  data_buf := NullBuf |} |} in
  let write_cr2 (value address : Z) : spi_mem_op :=
    {| cmd := {| cmd_nbytes := 1; cmd_buswidth := line; cmd_dtr := false;
                 cmd_opcode := u16 (SPI_NOR_OP_WR_CR2 hdr) |};
       addr := {| addr_nbytes := 4; addr_buswidth := line; addr_dtr := false;
                  addr_val := u64 address |};
       dummy := {| dummy_nbytes := 0; dummy_buswidth := 0;
                   dummy_dtr := false |};
       data := {| data_buswidth := line; data_dtr := false;
                  data_dir := SPI_MEM_DATA_OUT; data_nbytes := 1;
                  data_buf := Local [u8 value] |} |} in
  let op1 := write_cr2 (SPI_NOR_REG_MXIC_DC_20 hdr)
                       (SPI_NOR_REG_MXIC_CR2_DC hdr) in
  let op2 := write_cr2 (SPI_NOR_REG_MXIC_OPI_DTR_EN hdr)
                       (SPI_NOR_REG_MXIC_CR2_MODE hdr) in
  let '(r1, _, w1) := spi_mem_exec_op plat wen (world s) in
  let '(r2, _, w2) := spi_mem_exec_op plat op1 w1 in
  let '(r3, _, w3) := spi_mem_exec_op plat wen w2 in
  let '(r4, _, w4) := spi_mem_exec_op plat op2 w3 in
  spi_nor_macronix_octal_dtr_enable hdr plat s =
    if r1 !=? 0 then
      (r1, Build_state (nor_dev s) w1 (trace s ++ [EvExec wen r1]))
    else if r2 !=? 0 then
      (r2, Build_state (nor_dev s) w2
             (trace s ++ [EvExec wen r1; EvExec op1 r2]))
    else if r3 !=? 0 then
      (r3, Build_state (nor_dev s) w3
             (trace s ++ [EvExec wen r1; EvExec op1 r2; EvExec wen r3]))
    else
      (r4, Build_state (nor_dev s) w4
             (trace s ++ [EvExec wen r1; EvExec op1 r2; EvExec wen r3;
                          EvExec op2 r4])).
Proof.
  cbn zeta.
  unfold spi_nor_macronix_octal_dtr_enable, spi_nor_write_en, spi_nor_reg.
  unfold reg_op, octal_op, zero_addr, zero_dummy.
  match goal with
  | |- context [spi_mem_exec_op plat ?wen (world s)] =>
      destruct (spi_mem_exec_op plat wen (world s)) as [[r1 rx1] w1] eqn:E1
  end.
  match goal with
  | |- context [spi_mem_exec_op plat ?o w1] =>
      destruct (spi_mem_exec_op plat o w1) as [[r2 rx2] w2] eqn:E2
  end.
  match goal with
  | |- context [spi_mem_exec_op plat ?o w2] =>
      destruct (spi_mem_exec_op plat o w2) as [[r3 rx3] w3] eqn:E3
  end.
  match goal with
  | |- context [spi_mem_exec_op plat ?o w3] =>
      destruct (spi_mem_exec_op plat o w3) as [[r4 rx4] w4] eqn:E4
  end.
  msimpl. rewrite E1. msimpl. destruct (r1 !=? 0); msimpl; [reflexivity|].
  rewrite E2. msimpl.
  destruct (r2 !=? 0); msimpl; [rewrite <- app_assoc; reflexivity|].
  rewrite E3. msimpl.
  destruct (r3 !=? 0); msimpl; [rewrite <- !app_assoc; reflexivity|].
  rewrite E4. msimpl. rewrite <- !app_assoc. reflexivity.
Qed.

End EnableExtra.

Lemma macronix_quad_enable_short_circuit_witness :
  Z.testbit (u8 0x40) 6 = true /\
  spi_nor_macronix_quad_enable std_headers scripted 4 quad_already_set =
    Returned 0 (Build_state (nor_dev quad_already_set)
                  {| replies := []; clock := [] |}
                  [EvExec (read_sr_op std_headers 0) 0]).
Proof.
  split; [reflexivity|].
  exact (macronix_quad_enable_short_circuit std_headers scripted 4
           quad_already_set 0 0x40 {| replies := []; clock := [] |}
           eq_refl (or_intror eq_refl)).
Defined.

Lemma quad_enable_errors_witness :
  Z.testbit 0 1 = false /\
  returned (spi_nor_quad_enable std_headers scripted 4 span_write_rejected)
  = Some (- EINVAL std_headers).
Proof.
  split; [reflexivity|].
  remember (spi_nor_quad_enable std_headers scripted 4 span_write_rejected)
    as o eqn:Eo.
  pose proof (quad_enable_errors std_headers scripted 4 span_write_rejected
                _ _ _ _ _ eq_refl eq_refl eq_refl eq_refl) as H.
  cbv zeta in H. rewrite <- Eo in H. cbv in H.
  destruct H as (_ & _ & H & _). rewrite (H eq_refl eq_refl).
  - reflexivity.
  - discriminate.
Defined.

(** ** Software reset: further properties *)

Lemma reset_opcode_inverted (c : Z) :
  0 <= c < 256 -> reset_opcode false c = inverted c.
Proof.
  intros Hc. unfold reset_opcode, inverted.
  assert (Z.shiftl c 8 = c * 256) as Hs by (rewrite Z.shiftl_mul_pow2; lia).
  assert (u16 (Z.shiftl c 8) = Z.shiftl c 8) as ->.
  { unfold u16, wrap. apply Z.mod_small. lia. }
  assert (Z.land (Z.lnot c) 255 = 255 - c) as ->.
  { change 255 with (Z.ones 8) at 1. rewrite Z.land_ones by lia.
    unfold Z.lnot. rewrite <- Z.sub_1_r.
    rewrite <- (Z.mod_add _ 1) by lia.
    replace (- c - 1 + 1 * 2 ^ 8) with (255 - c) by lia.
    apply Z.mod_small. lia. }
  apply lor_u16; lia.
Qed.

Section ResetExtra.

Context {W : Type}.
Variable hdr : headers.
Variable plat : platform W.

(** X7.  With a 2-byte read opcode whose high and low byte differ,
    [spi_nor_reset] issues software-reset-enable and then software-reset
    in the inverted form: commands of 2 opcode bytes, the opcode byte c
    followed by its complement 255 - c, on 8 lines with DTR on every
    phase, no address, no dummy and no data.  A
    command the transport rejects ends the call with its code; after the
    second accepted command the call waits SPI_NOR_SRST_US and returns
    0.  The descriptor is never changed. *)
Theorem spi_nor_reset_inverted (s : state W) :
  0 <= SPI_NOR_OP_SRSTEN hdr < 256 ->
  0 <= SPI_NOR_OP_SRST hdr < 256 ->
  cmd_nbytes (cmd (read_op (nor_dev s))) = 2 ->
  ~ palindromic (nor_dev s) ->
  let d := nor_dev s in
  let command (opcode : Z) : spi_mem_op :=
    {| cmd := {| cmd_nbytes := 2;
                 cmd_buswidth := u8 (SPI_MEM_BUSWIDTH_8_LINE hdr);
                 cmd_dtr := true;
                 cmd_opcode := opcode |};
       addr := {| addr_nbytes := 0; addr_buswidth := 0; addr_dtr := true;
                  addr_val := 0 |};
       dummy := {| dummy_nbytes := 0; dummy_buswidth := 0;
                   dummy_dtr := true |};
       data := {| data_buswidth := 0; data_dtr := true;
                  data_dir := SPI_MEM_DATA_OUT; data_nbytes := 0;
                  data_buf := NullBuf |} |} in
  let op1 :=
    command (Z.lor (Z.shiftl (SPI_NOR_OP_SRSTEN hdr) 8)
                   (255 - SPI_NOR_OP_SRSTEN hdr)) in
  let op2 :=
    command (Z.lor (Z.shiftl (SPI_NOR_OP_SRST hdr) 8)
                   (255 - SPI_NOR_OP_SRST hdr)) in
  let '(r1, _, w1) := spi_mem_exec_op plat op1 (world s) in
  let '(r2, _, w2) := spi_mem_exec_op plat op2 w1 in
  spi_nor_reset hdr plat s =
    if r1 !=? 0 then
      (r1, Build_state d w1 (trace s ++ [EvExec op1 r1]))
    else if r2 !=? 0 then
      (r2, Build_state d w2 (trace s ++ [EvExec op1 r1; EvExec op2 r2]))
    else
      (0, Build_state d (udelay plat SPI_NOR_SRST_US w2)
            (trace s ++ [EvExec op1 r1; EvExec op2 r2;
                         EvDelay SPI_NOR_SRST_US])).
Proof.
  intros H1 H2 E P. cbn zeta.
  destruct (spi_mem_exec_op plat _ (world s)) as [[r1 rx1] w1] eqn:E1.
  destruct (spi_mem_exec_op plat _ w1) as [[r2 rx2] w2] eqn:E2.
  unfold spi_nor_reset. msimpl. rewrite E. cbn [Z.eqb Pos.eqb negb].
  unfold palindromic in P. apply Z.eqb_neq in P. rewrite P.
  rewrite !reset_opcode_inverted by assumption.
  unfold reset_op, inverted. msimpl. rewrite E1. msimpl.
  destruct (r1 !=? 0); msimpl; [reflexivity|].
  rewrite E2. msimpl.
  destruct (r2 !=? 0); msimpl; [rewrite <- app_assoc; reflexivity|].
  unfold do_udelay. msimpl. rewrite <- !app_assoc. reflexivity.
Qed.

End ResetExtra.

Lemma spi_nor_reset_inverted_witness :
  let command (opcode : Z) : spi_mem_op :=
    {| cmd := {| cmd_nbytes := 2; cmd_buswidth := 8; cmd_dtr := true;
                 cmd_opcode := opcode |};
       addr := {| addr_nbytes := 0; addr_buswidth := 0; addr_dtr := true;
                  addr_val := 0 |};
       dummy := {| dummy_nbytes := 0; dummy_buswidth := 0;
                   dummy_dtr := true |};
       data := {| data_buswidth := 0; data_dtr := true;
                  data_dir := SPI_MEM_DATA_OUT; data_nbytes := 0;
                  data_buf := NullBuf |} |} in
  cmd_nbytes (cmd (read_op octal_inv_dev)) = 2 /\
  spi_nor_reset std_headers scripted octal_inv_idle =
    (0, Build_state octal_inv_dev (world octal_inv_idle)
          [EvExec (command 0x6699) 0;
           EvExec (command 0x9966) 0;
           EvDelay 100]).
Proof.
  split; [reflexivity|].
  exact (spi_nor_reset_inverted std_headers scripted octal_inv_idle
           ltac:(cbn; lia) ltac:(cbn; lia) eq_refl ltac:(discriminate)).
Defined.

(** ** Initialisation: further properties *)

Section InitExtra.

Context {W : Type}.
Variable hdr : headers.
Variable plat : platform W.

(** X8.  The early exits of [spi_nor_init].  A platform hook that
    reports failure gives -EINVAL before any bus transaction and before
    [*size] is written; a descriptor with size 0 trips the assertion; a
    failing read-ID transaction gives its code after that single
    transaction, with [*size] already written. *)
Theorem spi_nor_init_early_exit (fuel : nat) (s : state W) :
  let d0 :=
    set_read_op (default_read_op hdr (read_op (nor_dev s))) (nor_dev s) in
  let '(rh, d1, w1) := plat_get_nor_data plat d0 (world s) in
  let '(rid, _, w2) := spi_mem_exec_op plat (read_id_op hdr) w1 in
  let o := spi_nor_init hdr plat fuel s in
  (rh <> 0 ->
   o = Returned (- EINVAL hdr, None) (Build_state d1 w1 (trace s))) /\
  (rh = 0 -> size d1 = 0 -> o = AssertFailed (Build_state d1 w1 (trace s))) /\
  (rh = 0 -> size d1 <> 0 -> rid <> 0 ->
   o = Returned (rid, Some (size d1))
         (Build_state d1 w2 (trace s ++ [EvExec (read_id_op hdr) rid]))).
Proof.
  cbn zeta.
  destruct (plat_get_nor_data plat _ (world s)) as [[rh d1] w1] eqn:Eh.
  destruct (spi_mem_exec_op plat (read_id_op hdr) w1) as [[rid rx] w2] eqn:Ei.
  unfold spi_nor_init, do_plat_get_nor_data, assertO, spi_nor_read_id,
    spi_nor_reg.
  fold (read_id_op hdr). msimpl. rewrite Eh.
  destruct (Z.eqb_spec rh 0) as [->|Nh]; msimpl.
  2:{ repeat split; intros; try reflexivity; contradiction. }
  split; [intros []; reflexivity|].
  destruct (Z.eqb_spec (size d1) 0) as [Ez|Nz]; msimpl.
  { split; intros; [reflexivity|contradiction]. }
  split; [intros; contradiction|]. intros _ _ Nid.
  rewrite Ei. msimpl.
  destruct (Z.eqb_spec rid 0); [contradiction|]. reflexivity.
Qed.

(** X9.  [spi_nor_init] on a device that needs no capability sequence
    (opcode width other than 2, and a data bus width other than 4 or a
    Micron ID): without bank switching it issues nothing but read-ID,
    returns 0 and leaves the descriptor as the hook filled it; with bank
    switching it selects the bank commands by ID (BRRD/BRWR for
    Spansion, RDEAR/WREAR otherwise), reads the bank register with the
    selected read command and, if that succeeds, caches the byte read;
    it returns the code of that read. *)
Theorem spi_nor_init_plain (fuel : nat) (s : state W) d1 w1 rx w2 :
  plat_get_nor_data plat
    (set_read_op (default_read_op hdr (read_op (nor_dev s))) (nor_dev s))
    (world s) = (0, d1, w1) ->
  size d1 <> 0 ->
  spi_mem_exec_op plat (read_id_op hdr) w1 = (0, rx, w2) ->
  cmd_nbytes (cmd (read_op d1)) <> 2 ->
  data_buswidth (data (read_op d1)) <> 4 \/ u8 rx = MICRON_ID ->
  let o := spi_nor_init hdr plat fuel s in
  let t2 := trace s ++ [EvExec (read_id_op hdr) 0] in
  if use_bank hdr d1 then
    let d2 := bank_cmds_for hdr (u8 rx) d1 in
    let '(rb, bx, w3) := spi_mem_exec_op plat (read_bank_op hdr d2) w2 in
    o = Returned (rb, Some (size d1))
          (Build_state
             (if rb =? 0 then set_selected_bank (u8 bx) d2 else d2) w3
             (t2 ++ [EvExec (read_bank_op hdr d2) rb]))
  else
    o = Returned (0, Some (size d1)) (Build_state d1 w2 t2).
Proof.
  intros Eh Hsz Eid Hnb Hq. cbn zeta.
  unfold spi_nor_init, do_plat_get_nor_data, assertO, spi_nor_read_id,
    spi_nor_reg.
  fold (read_id_op hdr). msimpl. rewrite Eh.
  change (0 !=? 0) with false. msimpl.
  destruct (Z.eqb_spec (size d1) 0) as [|_]; [contradiction|]. msimpl.
  rewrite Eid. change (0 !=? 0) with false. msimpl.
  destruct (Z.eqb_spec (cmd_nbytes (cmd (read_op d1))) 2) as [|_];
    [contradiction|].
  unfold select_bank_cmds. msimpl.
  assert ((if data_buswidth (data (read_op d1)) =? 4
           then if u8 rx =? MACRONIX_ID
                then spi_nor_macronix_quad_enable hdr plat fuel
                else if u8 rx =? MICRON_ID
                     then fun s0 : state W => Returned 0 s0
                     else spi_nor_quad_enable hdr plat fuel
           else fun s0 : state W => Returned 0 s0)
          = fun s0 : state W => Returned 0 s0) as ->.
  { destruct (Z.eqb_spec (data_buswidth (data (read_op d1))) 4) as [E4|N4];
      [|reflexivity].
    destruct Hq as [Hq|Hq]; [contradiction|]. rewrite Hq. reflexivity. }
  destruct (use_bank hdr d1) eqn:Eb.
  - unfold bank_cmds_for, read_bank_op, spi_nor_read_bar, spi_nor_reg.
    destruct (u8 rx =? SPANSION_ID); msimpl;
      change ((0 =? 0) && true) with true; msimpl;
      cbn [bank_read_cmd set_bank_cmds];
      match goal with
      | |- context [spi_mem_exec_op plat ?o w2] =>
          destruct (spi_mem_exec_op plat o w2) as [[rb bx] w3]
      end; msimpl;
      destruct (Z.eqb_spec rb 0) as [->|Nb]; msimpl; reflexivity.
  - msimpl. reflexivity.
Qed.

(** X10.  [spi_nor_init] with a 4-line data phase on a part that is not
    Micron (and an opcode width other than 2): after read-ID and the
    selection of the bank commands it runs the Macronix sequence for a
    Macronix ID and the Spansion-style sequence for every other ID.  If
    the sequence returns an error, init returns that error and issues
    nothing more; if it returns 0 and bank switching is enabled, the
    bank register is read and the result of that read is returned. *)
Theorem spi_nor_init_quad_dispatch (fuel : nat) (s : state W) d1 w1 rx w2 :
  plat_get_nor_data plat
    (set_read_op (default_read_op hdr (read_op (nor_dev s))) (nor_dev s))
    (world s) = (0, d1, w1) ->
  size d1 <> 0 ->
  spi_mem_exec_op plat (read_id_op hdr) w1 = (0, rx, w2) ->
  cmd_nbytes (cmd (read_op d1)) <> 2 ->
  data_buswidth (data (read_op d1)) = 4 ->
  u8 rx <> MICRON_ID ->
  let d2 := if use_bank hdr d1 then bank_cmds_for hdr (u8 rx) d1 else d1 in
  let s2 := Build_state d2 w2 (trace s ++ [EvExec (read_id_op hdr) 0]) in
  let enable :=
    if u8 rx =? MACRONIX_ID then spi_nor_macronix_quad_enable hdr plat fuel
    else spi_nor_quad_enable hdr plat fuel in
  spi_nor_init hdr plat fuel s =
    match enable s2 with
    | Returned r s3 =>
        if (r =? 0) && use_bank hdr d1 then
          Returned (fst (spi_nor_read_bar hdr plat s3), Some (size d1))
                   (snd (spi_nor_read_bar hdr plat s3))
        else Returned (r, Some (size d1)) s3
    | AssertFailed s3 => AssertFailed s3
    | OutOfFuel s3 => OutOfFuel s3
    end.
Proof.
  intros Eh Hsz Eid Hnb H4 Hm. cbn zeta.
  unfold spi_nor_init, do_plat_get_nor_data, assertO, spi_nor_read_id,
    spi_nor_reg.
  fold (read_id_op hdr). msimpl. rewrite Eh.
  change (0 !=? 0) with false. msimpl.
  destruct (Z.eqb_spec (size d1) 0) as [|_]; [contradiction|]. msimpl.
  rewrite Eid. change (0 !=? 0) with false. msimpl.
  destruct (Z.eqb_spec (cmd_nbytes (cmd (read_op d1))) 2) as [|_];
    [contradiction|].
  rewrite H4. cbn [Z.eqb Pos.eqb].
  destruct (Z.eqb_spec (u8 rx) MICRON_ID) as [|_]; [contradiction|].
  unfold select_bank_cmds, bank_cmds_for. msimpl.
  set (enable := if u8 rx =? MACRONIX_ID
                 then spi_nor_macronix_quad_enable hdr plat fuel
                 else spi_nor_quad_enable hdr plat fuel).
  destruct (use_bank hdr d1) eqn:Eb.
  - destruct (u8 rx =? SPANSION_ID); msimpl;
      match goal with
      | |- context [enable ?s2] => destruct (enable s2) as [r s3|s3|s3]
      end; try reflexivity;
      destruct (r =? 0); cbn [andb]; msimpl; try reflexivity;
      destruct (spi_nor_read_bar hdr plat s3); reflexivity.
  - msimpl.
    match goal with
    | |- context [enable ?s2] => destruct (enable s2) as [r s3|s3|s3]
    end; try reflexivity.
    rewrite andb_false_r. reflexivity.
Qed.

End InitExtra.

Lemma spi_nor_init_plain_witness :
  use_bank std_headers (nor_dev spansion_banked) = true /\
  spi_nor_init std_headers scripted 4 spansion_banked =
    Returned (0, Some 0x2000000)
      (Build_state
         (set_selected_bank 1
            (set_bank_cmds 0x16 0x17 (nor_dev spansion_banked)))
         {| replies := []; clock := [] |}
         [EvExec (read_id_op std_headers) 0;
          EvExec (reg_op std_headers 0x16 (Local [0]) 1 SPI_MEM_DATA_IN) 0]).
Proof.
  split; [reflexivity|].
  assert (plat_get_nor_data scripted
            (set_read_op (default_read_op std_headers
                            (read_op (nor_dev spansion_banked)))
                         (nor_dev spansion_banked))
            (world spansion_banked)
          = (0, nor_dev spansion_banked, world spansion_banked)) as E1
    by reflexivity.
  assert (size (nor_dev spansion_banked) <> 0) as E2 by discriminate.
  assert (spi_mem_exec_op scripted (read_id_op std_headers)
            (world spansion_banked)
          = (0, 0x01, {| replies := [(0, 0x01)]; clock := [] |})) as E3
    by reflexivity.
  assert (cmd_nbytes (cmd (read_op (nor_dev spansion_banked))) <> 2) as E4
    by discriminate.
  assert (data_buswidth (data (read_op (nor_dev spansion_banked))) <> 4) as E5
    by discriminate.
  remember (spi_nor_init std_headers scripted 4 spansion_banked) as o eqn:Eo.
  pose proof (spi_nor_init_plain std_headers scripted 4 spansion_banked
                _ _ _ _ E1 E2 E3 E4 (or_introl E5)) as H.
  cbv zeta in H. rewrite <- Eo in H. vm_compute in H. rewrite H.
  vm_compute. reflexivity.
Defined.

Lemma spi_nor_init_quad_dispatch_witness :
  data_buswidth (data (read_op quad_dev)) = 4 /\
  returned (spi_nor_init std_headers quad_platform 4 macronix_quad_refused)
  = Some (-5, Some 0x2000000).
Proof.
  split; [reflexivity|].
  assert (plat_get_nor_data quad_platform
            (set_read_op (default_read_op std_headers
                            (read_op (nor_dev macronix_quad_refused)))
                         (nor_dev macronix_quad_refused))
            (world macronix_quad_refused)
          = (0, quad_dev, world macronix_quad_refused)) as E1 by reflexivity.
  assert (size quad_dev <> 0) as E2 by discriminate.
  assert (spi_mem_exec_op quad_platform (read_id_op std_headers)
            (world macronix_quad_refused)
          = (0, 0xC2, {| replies := [(0, 0x00); (-5, 0)]; clock := [] |}))
    as E3 by reflexivity.
  assert (cmd_nbytes (cmd (read_op quad_dev)) <> 2) as E4 by discriminate.
  assert (data_buswidth (data (read_op quad_dev)) = 4) as E5 by reflexivity.
  assert (u8 0xC2 <> MICRON_ID) as E6 by discriminate.
  remember (spi_nor_init std_headers quad_platform 4 macronix_quad_refused)
    as o eqn:Eo.
  pose proof (spi_nor_init_quad_dispatch std_headers quad_platform 4
                macronix_quad_refused _ _ _ _ E1 E2 E3 E4 E5 E6) as H.
  cbv zeta in H. rewrite <- Eo in H. vm_compute in H. rewrite H.
  reflexivity.
Defined.

(** ** What the register sequences leave alone *)

Section FrameExtra.

Context {W : Type}.
Variable hdr : headers.
Variable plat : platform W.

Lemma keeps_ret {A} (a : A) : keeps_dev (@ret W A a).
Proof. intros s. reflexivity. Qed.

Lemma keeps_bind {A B} (m : @M W A) (k : A -> @M W B) :
  keeps_dev m -> (forall a, keeps_dev (k a)) -> keeps_dev (bind m k).
Proof.
  intros Hm Hk s. unfold bind. specialize (Hm s).
  destruct (m s) as [a s1]. cbn [snd] in Hm. rewrite Hk. exact Hm.
Qed.

Lemma keeps_get_dev : keeps_dev (@get_dev W).
Proof. intros s. reflexivity. Qed.

Lemma keeps_exec (op : spi_mem_op) : keeps_dev (exec_op plat op).
Proof. intros s. apply exec_op_effect. Qed.

Lemma keeps_reg reg buf len dir : keeps_dev (spi_nor_reg hdr plat reg buf len dir).
Proof. apply keeps_exec. Qed.

Lemma keeps_write_en : keeps_dev (spi_nor_write_en hdr plat).
Proof.
  apply keeps_bind; [apply keeps_reg|]. intros [r rx]. apply keeps_ret.
Qed.

Lemma keeps_ready : keeps_dev (spi_nor_ready hdr plat).
Proof. intros s. apply spi_nor_ready_effect. Qed.

Lemma keepsO_ret {A} (a : A) : keeps_devO (@retO W A a).
Proof. intros s. reflexivity. Qed.

Lemma keepsO_lift {A} (m : @M W A) : keeps_dev m -> keeps_devO (lift m).
Proof.
  intros Hm s. unfold lift. specialize (Hm s). destruct (m s). exact Hm.
Qed.

Lemma keepsO_bind {A B} (m : @MO W A) (k : A -> @MO W B) :
  keeps_devO m -> (forall a, keeps_devO (k a)) -> keeps_devO (bindO m k).
Proof.
  intros Hm Hk s. unfold bindO. specialize (Hm s).
  destruct (m s) as [a s1|s1|s1]; cbn [final_state] in *; try exact Hm.
  rewrite Hk. exact Hm.
Qed.

Lemma keepsO_wait_loop (fuel : nat) (t : Z) :
  keeps_devO (wait_loop hdr plat fuel t).
Proof.
  induction fuel as [|fuel IH]; intros s; [reflexivity|].
  cbn [wait_loop]. unfold do_timeout_elapsed.
  destruct (timeout_elapsed plat t (world s)) as [expired w1].
  destruct expired; cbn [negb]; [reflexivity|].
  pose proof (keeps_ready (emit w1 (EvElapsed false) s)) as K.
  destruct (spi_nor_ready hdr plat _) as [r s2]. cbn [snd] in K.
  destruct (r <=? 0); cbn [final_state]; [exact K|].
  rewrite IH. exact K.
Qed.

Lemma keepsO_wait_ready (fuel : nat) :
  keeps_devO (spi_nor_wait_ready hdr plat fuel).
Proof.
  intros s. unfold spi_nor_wait_ready, do_timeout_init_us.
  destruct (timeout_init_us plat _ (world s)) as [t w1].
  rewrite keepsO_wait_loop. reflexivity.
Qed.

Ltac keeps :=
  repeat first
    [ apply keeps_ret | apply keepsO_ret | apply keeps_get_dev
    | apply keeps_exec | apply keeps_reg | apply keeps_write_en
    | apply keeps_ready | apply keepsO_wait_ready
    | apply keepsO_lift
    | apply keeps_bind; [|intros ?] | apply keepsO_bind; [|intros ?]
    | match goal with
      | |- keeps_dev (match ?x with _ => _ end) => destruct x
      | |- keeps_devO (match ?x with _ => _ end) => destruct x
      | |- keeps_dev (let _ := _ in _) => cbv zeta
      | |- keeps_devO (let _ := _ in _) => cbv zeta
      end ].

(** X11.  Polling and the capability sequences only talk to the device:
    whatever the transport answers and however they end,
    [spi_nor_wait_ready], both quad-enable sequences, the octal DTR
    enable and [spi_nor_reset] leave every field of the descriptor (read
    template, size, option bits, cached bank, bank commands) as it
    was. *)
Theorem sequences_keep_descriptor (fuel : nat) (s : state W) :
  nor_dev (final_state (spi_nor_wait_ready hdr plat fuel s)) = nor_dev s /\
  nor_dev (final_state (spi_nor_macronix_quad_enable hdr plat fuel s))
    = nor_dev s /\
  nor_dev (final_state (spi_nor_quad_enable hdr plat fuel s)) = nor_dev s /\
  nor_dev (snd (spi_nor_macronix_octal_dtr_enable hdr plat s)) = nor_dev s /\
  nor_dev (snd (spi_nor_reset hdr plat s)) = nor_dev s.
Proof.
  split; [apply keepsO_wait_ready|].
  split; [revert s; unfold spi_nor_macronix_quad_enable, spi_nor_read_sr;
          fold (keeps_devO (W := W) (A := Z)); keeps|].
  split; [revert s;
          unfold spi_nor_quad_enable, spi_nor_write_sr_cr, spi_nor_read_sr,
            spi_nor_read_cr;
          fold (keeps_devO (W := W) (A := Z)); keeps|].
  split; [revert s; unfold spi_nor_macronix_octal_dtr_enable;
          fold (keeps_dev (W := W) (A := Z)); keeps|].
  revert s. unfold spi_nor_reset. fold (keeps_dev (W := W) (A := Z)). keeps.
Qed.

(** X12.  [spi_nor_wait_ready] never reports "busy": a value it returns
    is 0 or the non-positive code of a readiness check, or -ETIMEDOUT. *)
Theorem wait_ready_result (fuel : nat) (s : state W) :
  match spi_nor_wait_ready hdr plat fuel s with
  | Returned r _ => r <= 0 \/ r = - ETIMEDOUT hdr
  | AssertFailed _ => False
  | OutOfFuel _ => True
  end.
Proof.
  unfold spi_nor_wait_ready, do_timeout_init_us.
  destruct (timeout_init_us plat _ (world s)) as [t w1].
  generalize (emit w1 (EvTimeoutInit SPI_READY_TIMEOUT_US) s). clear s w1.
  induction fuel as [|fuel IH]; intros s; [exact I|].
  cbn [wait_loop]. unfold do_timeout_elapsed.
  destruct (timeout_elapsed plat t (world s)) as [expired w1].
  destruct expired; cbn [negb]; [right; reflexivity|].
  destruct (spi_nor_ready hdr plat _) as [r s2].
  destruct (Z.leb_spec r 0); [left; assumption|apply IH].
Qed.

End FrameExtra.

(** ** Banked linear read: further properties *)

Section ReadExtra.

Context {W : Type}.
Variable hdr : headers.
Variable plat : platform W.

(** X13.  Without bank switching a read of 1 to 2^32 - 1 bytes is a
    single bulk read of the whole length at [offset], never clamped to a
    bank window.  If it succeeds, nothing else is issued, the whole
    length is reported and the template's address and buffer pointer are
    advanced by it; if it fails, [spi_nor_clean_bar] still runs and 0
    bytes are reported with the error. *)
Theorem spi_nor_read_direct (fuel : nat) (offset buffer length : Z)
    (s : state W) :
  use_bank hdr (nor_dev s) = false ->
  0 < length < 2 ^ 32 -> length < 2 ^ size_t_bits hdr ->
  let d := nor_dev s in
  let op := set_data_nbytes length (entry_op offset buffer d) in
  let '(r, w1) := spi_mem_dirmap_read plat op (world s) in
  let s1 := Build_state (set_read_op op d) w1 (trace s ++ [EvDirmap op r]) in
  spi_nor_read hdr plat (S (S fuel)) offset buffer length s =
    if r =? 0
    then Returned (0, length)
           (Build_state (set_read_op (advance_op hdr op) d) w1 (trace s1))
    else Returned (r, 0) (snd (spi_nor_clean_bar hdr plat s1)).
Proof.
  intros Hb Hl Hs. cbn zeta.
  destruct (spi_mem_dirmap_read plat _ (world s)) as [r w1] eqn:Ed.
  unfold spi_nor_read. msimpl. fold (entry_op offset buffer (nor_dev s)).
  cbn [read_loop].
  destruct (Z.eqb_spec length 0) as [|_]; [lia|]. cbn [negb].
  unfold read_chunk_setup. msimpl.
  assert (use_bank hdr (set_read_op (entry_op offset buffer (nor_dev s))
                          (nor_dev s)) = false) as -> by exact Hb.
  msimpl. cbn [read_op set_read_op]. rewrite (u32_small length) by lia.
  rewrite Ed. msimpl.
  destruct (Z.eqb_spec r 0) as [->|Nr]; cbn [negb].
  2:{ destruct (spi_nor_clean_bar hdr plat _) as [rc s3]. reflexivity. }
  unfold read_advance. msimpl.
  cbn [set_read_op read_op set_data_nbytes data data_nbytes].
  rewrite Z.sub_diag.
  assert (size_t hdr 0 = 0) as -> by (unfold size_t, wrap; apply Z.mod_0_l; lia).
  assert (size_t hdr (0 + length) = length) as ->
    by (unfold size_t, wrap; apply Z.mod_small; lia).
  destruct fuel; cbn [read_loop Z.eqb negb]; msimpl;
    change (use_bank hdr _) with (use_bank hdr (nor_dev s));
    rewrite Hb; reflexivity.
Qed.

(** X14.  A read of length 0 issues no bulk read and reports 0 bytes:
    without bank switching it returns 0 at once; with bank switching it
    runs [spi_nor_clean_bar] and returns its code.  The template's
    address and buffer pointer are overwritten all the same. *)
Theorem spi_nor_read_empty (fuel : nat) (offset buffer : Z) (s : state W) :
  let s1 :=
    Build_state (set_read_op (entry_op offset buffer (nor_dev s)) (nor_dev s))
                (world s) (trace s) in
  spi_nor_read hdr plat (S fuel) offset buffer 0 s =
    if use_bank hdr (nor_dev s)
    then Returned (fst (spi_nor_clean_bar hdr plat s1), 0)
                  (snd (spi_nor_clean_bar hdr plat s1))
    else Returned (0, 0) s1.
Proof.
  cbn zeta. unfold spi_nor_read. msimpl.
  fold (entry_op offset buffer (nor_dev s)).
  cbn [read_loop Z.eqb negb]. msimpl.
  change (use_bank hdr (set_read_op _ (nor_dev s)))
    with (use_bank hdr (nor_dev s)).
  destruct (use_bank hdr (nor_dev s)); [|reflexivity].
  destruct (spi_nor_clean_bar hdr plat _) as [r s2]. cbn [fst snd].
  destruct (Z.eqb_spec r 0) as [->|N]; reflexivity.
Qed.

(** X15.  With bank switching enabled, a read that returns leaves the
    cached bank at 0, except when it returns an error although no bulk
    read failed, that is, when a bank select failed.  In particular the
    cached bank is 0 after every read that returns 0. *)
Theorem spi_nor_read_bank_after (fuel : nat) (offset buffer length : Z)
    (s : state W) :
  use_bank hdr (nor_dev s) = true ->
  match spi_nor_read hdr plat fuel offset buffer length s with
  | Returned (r, _) s' =>
      (r = 0 -> selected_bank (nor_dev s') = 0) /\
      (selected_bank (nor_dev s') = 0
       \/ (r <> 0 /\
           exists evs, trace s' = trace s ++ evs /\ all_completed evs))
  | AssertFailed _ => False
  | OutOfFuel _ => True
  end.
Proof.
  intros Hb. unfold spi_nor_read. msimpl.
  match goal with
  | |- match read_loop hdr plat fuel length 0 ?s1 with _ => _ end =>
      pose proof (read_loop_bank_after hdr plat fuel length 0 s1 Hb) as L;
      destruct (read_loop hdr plat fuel length 0 s1) as [[r lr] s'|s'|s']
  end; try assumption.
  split; [|exact L].
  intros ->. destruct L as [B|[N _]]; [exact B|contradiction].
Qed.

Lemma clean_bar_config (s : state W) :
  config (nor_dev (snd (spi_nor_clean_bar hdr plat s))) = config (nor_dev s).
Proof.
  unfold spi_nor_clean_bar, spi_nor_write_en, spi_nor_reg. msimpl.
  destruct (selected_bank (nor_dev s) =? 0); [reflexivity|]. msimpl.
  destruct (spi_mem_exec_op plat _ (world s)) as [[r1 rx1] w1]. msimpl.
  destruct (r1 !=? 0); msimpl; [reflexivity|].
  destruct (spi_mem_exec_op plat _ w1) as [[r2 rx2] w2]. reflexivity.
Qed.

Lemma write_bar_config (offset : Z) (s : state W) :
  config (nor_dev (snd (spi_nor_write_bar hdr plat offset s)))
  = config (nor_dev s).
Proof.
  unfold spi_nor_write_bar, spi_nor_write_en, spi_nor_reg. msimpl.
  destruct (u8 (offset / BANK_SIZE) =? selected_bank (nor_dev s));
    [reflexivity|]. msimpl.
  destruct (spi_mem_exec_op plat _ (world s)) as [[r1 rx1] w1]. msimpl.
  destruct (r1 !=? 0); msimpl; [reflexivity|].
  destruct (spi_mem_exec_op plat _ w1) as [[r2 rx2] w2]. msimpl.
  destruct (r2 !=? 0); reflexivity.
Qed.

Lemma read_chunk_setup_config (length : Z) (s : state W) :
  config (nor_dev (snd (read_chunk_setup hdr plat length s)))
  = config (nor_dev s).
Proof.
  unfold read_chunk_setup. msimpl.
  destruct (use_bank hdr (nor_dev s)); [|reflexivity]. msimpl.
  pose proof (write_bar_config (u32 (addr_val (addr (read_op (nor_dev s))))) s)
    as C.
  destruct (spi_nor_write_bar hdr plat _ s) as [r s1]. cbn [snd] in C.
  destruct (r !=? 0); msimpl; exact C.
Qed.

Lemma read_loop_config (fuel : nat) (length lr : Z) (s : state W) :
  config (nor_dev (final_state (read_loop hdr plat fuel length lr s)))
  = config (nor_dev s).
Proof.
  revert length lr s. induction fuel as [|fuel IH]; intros length lr s.
  { reflexivity. }
  cbn [read_loop]. destruct (length !=? 0).
  - pose proof (read_chunk_setup_config length s) as C1.
    destruct (read_chunk_setup hdr plat length s) as [[r|[]] s1];
      cbn [snd] in C1; [exact C1|].
    unfold dirmap_read.
    destruct (spi_mem_dirmap_read plat _ (world s1)) as [r2 w2].
    unfold emit. cbn [nor_dev world trace].
    destruct (r2 !=? 0).
    + match goal with
      | |- context [spi_nor_clean_bar hdr plat ?s2] =>
          pose proof (clean_bar_config s2) as C3;
          destruct (spi_nor_clean_bar hdr plat s2) as [r3 s3]
      end.
      cbn [snd final_state nor_dev] in *. congruence.
    + unfold read_advance. msimpl. rewrite IH. exact C1.
  - destruct (use_bank hdr (nor_dev s)); [|reflexivity].
    pose proof (clean_bar_config s) as C.
    destruct (spi_nor_clean_bar hdr plat s) as [r s1]. cbn [snd] in C.
    destruct (r !=? 0); exact C.
Qed.

(** X16.  [spi_nor_read] never changes the configuration of the
    descriptor: the capacity, the option bits and the two bank commands
    are after the call, however it ends, what they were before. *)
Theorem spi_nor_read_config (fuel : nat) (offset buffer length : Z)
    (s : state W) :
  config (nor_dev (final_state
            (spi_nor_read hdr plat fuel offset buffer length s)))
  = config (nor_dev s).
Proof.
  unfold spi_nor_read. msimpl. rewrite read_loop_config. reflexivity.
Qed.

End ReadExtra.

Lemma spi_nor_read_direct_witness :
  use_bank std_headers (nor_dev one_bank) = false /\
  returned (spi_nor_read std_headers scripted 2 0x100 0 0x200 one_bank)
  = Some (0, 0x200).
Proof.
  split; [reflexivity|].
  rewrite (spi_nor_read_direct std_headers scripted 0 0x100 0 0x200 one_bank
             eq_refl ltac:(lia) ltac:(cbn; lia)).
  reflexivity.
Defined.

Lemma spi_nor_read_bank_after_witness :
  use_bank std_headers (nor_dev two_banks) = true /\
  match spi_nor_read std_headers scripted 8 0xF00000 0 0x400000 two_banks with
  | Returned (r, _) s' =>
      (r = 0 -> selected_bank (nor_dev s') = 0) /\
      (selected_bank (nor_dev s') = 0
       \/ (r <> 0 /\
           exists evs, trace s' = trace two_banks ++ evs /\ all_completed evs))
  | AssertFailed _ => False
  | OutOfFuel _ => True
  end.
Proof.
  split; [reflexivity|].
  exact (spi_nor_read_bank_after std_headers scripted 8 0xF00000 0 0x400000
           two_banks eq_refl).
Defined.

(** ** Banked linear read: the bank selected at each bulk read *)

Lemma reads_in_bank_exec_app (wr cur : Z) (pre l : list event) :
  Forall is_exec pre ->
  reads_in_bank wr (last_bank wr cur pre) l ->
  reads_in_bank wr cur (pre ++ l).
Proof.
  intros Hpre. revert cur. induction Hpre as [|e pre He Hpre IH]; intros cur Hl.
  { exact Hl. }
  destruct e; cbn in He; try contradiction.
  cbn [app reads_in_bank last_bank] in *. apply IH, Hl.
Qed.

Lemma reads_in_bank_exec (wr cur : Z) (l : list event) :
  Forall is_exec l -> reads_in_bank wr cur l.
Proof.
  intros Hl. rewrite <- (app_nil_r l).
  apply reads_in_bank_exec_app; [exact Hl|exact I].
Qed.

Section ReadBanks.

Context {W : Type}.
Variable hdr : headers.
Variable plat : platform W.

Lemma write_bar_tracks (offset : Z) (s : state W) :
  let bank := u8 (offset / BANK_SIZE) in
  let r := fst (spi_nor_write_bar hdr plat offset s) in
  let s' := snd (spi_nor_write_bar hdr plat offset s) in
  exists evs,
    trace s' = trace s ++ evs /\ Forall is_exec evs /\
    (r = 0 ->
     nor_dev s' = set_selected_bank bank (nor_dev s) /\
     last_bank (bank_write_cmd (nor_dev s)) (selected_bank (nor_dev s)) evs
     = bank).
Proof.
  cbn zeta. unfold spi_nor_write_bar, spi_nor_write_en, spi_nor_reg. msimpl.
  destruct (Z.eqb_spec (u8 (offset / BANK_SIZE)) (selected_bank (nor_dev s)))
    as [E|N].
  { exists []. msimpl. rewrite app_nil_r. split; [reflexivity|].
    split; [constructor|]. intros _. split; [|symmetry; exact E].
    rewrite E. destruct (nor_dev s). reflexivity. }
  msimpl. destruct (spi_mem_exec_op plat _ (world s)) as [[r1 rx1] w1].
  msimpl. destruct (Z.eqb_spec r1 0) as [->|N1]; msimpl.
  2:{ eexists. split; [reflexivity|]. split; [repeat constructor|].
      intros; contradiction. }
  destruct (spi_mem_exec_op plat _ w1) as [[r2 rx2] w2].
  msimpl. destruct (Z.eqb_spec r2 0) as [->|N2]; msimpl.
  2:{ eexists. split; [rewrite <- app_assoc; reflexivity|].
      split; [repeat constructor|]. intros; contradiction. }
  eexists. split; [rewrite <- app_assoc; reflexivity|].
  split; [repeat constructor|]. intros _. split; [reflexivity|].
  cbn [app last_bank bank_written reg_op cmd cmd_opcode data data_dir data_buf].
  cbn [Z.eqb andb].
  destruct (u8 (SPI_NOR_OP_WREN hdr) =? u8 (bank_write_cmd (nor_dev s)));
    rewrite Z.eqb_refl; reflexivity.
Qed.

(** One turn of the loop, with bank switching, in full. *)
Lemma read_loop_turn_banked (fuel : nat) (length lr : Z) (s : state W) :
  length <> 0 -> use_bank hdr (nor_dev s) = true ->
  let d := nor_dev s in
  let bank := u8 (u32 (addr_val (addr (read_op d))) / BANK_SIZE) in
  let n := chunk_len hdr length d in
  let op := set_data_nbytes n (read_op d) in
  (exists r s1 evs,
      r <> 0 /\ trace s1 = trace s ++ evs /\ Forall is_exec evs /\
      read_loop hdr plat (S fuel) length lr s = Returned (r, lr) s1)
  \/ (exists pre post r s3,
      r <> 0 /\ Forall is_exec pre /\ Forall is_exec post /\
      last_bank (bank_write_cmd d) (selected_bank d) pre = bank /\
      trace s3 = trace s ++ pre ++ EvDirmap op r :: post /\
      read_loop hdr plat (S fuel) length lr s = Returned (r, lr) s3)
  \/ (exists pre s3,
      Forall is_exec pre /\
      last_bank (bank_write_cmd d) (selected_bank d) pre = bank /\
      trace s3 = trace s ++ pre ++ [EvDirmap op 0] /\
      nor_dev s3 = set_selected_bank bank (set_read_op (advance_op hdr op) d) /\
      read_loop hdr plat (S fuel) length lr s
      = read_loop hdr plat fuel (size_t hdr (length - n))
                  (size_t hdr (lr + n)) s3).
Proof.
  intros Hl Hb. cbn zeta.
  remember (read_loop hdr plat (S fuel) length lr s) as X eqn:EX.
  cbn [read_loop] in EX.
  destruct (Z.eqb_spec length 0) as [|_]; [contradiction|]. cbn [negb] in EX.
  unfold read_chunk_setup, chunk_len in *.
  unfold bind at 1 in EX. unfold get_dev at 1 in EX. rewrite Hb in *.
  unfold bind at 1 in EX.
  destruct (write_bar_tracks (u32 (addr_val (addr (read_op (nor_dev s))))) s)
    as (pre & T1 & A1 & B).
  cbn zeta in B.
  destruct (spi_nor_write_bar hdr plat _ s) as [r1 s1]. cbn [fst snd] in *.
  destruct (Z.eqb_spec r1 0) as [->|N1]; cbn [negb] in EX.
  { right. destruct (B eq_refl) as [D1 L1]. clear B.
    msimpl_in EX. rewrite D1 in EX.
    cbn [read_op selected_bank set_selected_bank] in EX.
    match type of EX with
    | context [spi_mem_dirmap_read plat ?o (world s1)] =>
        destruct (spi_mem_dirmap_read plat o (world s1)) as [r2 w2]
    end.
    msimpl_in EX. destruct (Z.eqb_spec r2 0) as [->|N2]; cbn [negb] in EX.
    - right. unfold read_advance in EX. msimpl_in EX.
      eexists pre, _. split; [assumption|]. split; [exact L1|].
      split; [|split; [|exact EX]]; cbn.
      + rewrite T1, <- app_assoc. reflexivity.
      + reflexivity.
    - left.
      match type of EX with
      | context [spi_nor_clean_bar hdr plat ?s2] =>
          pose proof (clean_bar_effect hdr plat s2)
            as [(_ & _ & _ & post & T3 & A3) _];
          destruct (spi_nor_clean_bar hdr plat s2) as [r3 s3]
      end.
      cbn [snd nor_dev trace] in *.
      exists pre, post, r2, s3.
      split; [assumption|]. split; [assumption|]. split; [assumption|].
      split; [exact L1|]. split; [|exact EX].
      rewrite T3, T1, <- !app_assoc. reflexivity. }
  left. exists r1, s1, pre. unfold ret in EX.
  split; [assumption|]. split; [assumption|]. split; [assumption|exact EX].
Qed.

Section InRangeBanks.

Hypothesis size_t_width : size_t_bits hdr = 32 \/ size_t_bits hdr = 64.

Lemma read_loop_banks (fuel : nat) (length lr : Z) (s : state W) :
  let a := addr_val (addr (read_op (nor_dev s))) in
  use_bank hdr (nor_dev s) = true ->
  0 <= a -> 0 <= length -> a + length < 2 ^ 32 ->
  exists evs,
    trace (final_state (read_loop hdr plat fuel length lr s))
      = trace s ++ evs /\
    reads_in_bank (bank_write_cmd (nor_dev s)) (selected_bank (nor_dev s)) evs.
Proof.
  revert length lr s. induction fuel as [|fuel IH];
    intros length lr s a Hb Ha Hl Hcap.
  { exists []. rewrite app_nil_r. split; [reflexivity|exact I]. }
  destruct (Z.eq_dec length 0) as [->|Hn].
  { destruct (read_loop_done hdr plat fuel lr s)
      as (r & s1 & (_ & _ & _ & evs & T & A) & _ & ->).
    exists evs. split; [exact T|apply reads_in_bank_exec, A]. }
  pose proof (chunk_len_value hdr size_t_width length (nor_dev s)
                Ha ltac:(lia) Hcap) as Hc.
  fold a in Hc. rewrite Hb in Hc.
  pose proof (window_facts a length Ha ltac:(lia)) as (Hn1 & Hn2 & _ & _).
  cbn zeta in *.
  assert (u8 (u32 a / BANK_SIZE) = a / BANK_SIZE) as Hbank.
  { rewrite (u32_small a) by lia. unfold u8, wrap. apply Z.mod_small.
    split; [apply Z.div_pos; unfold BANK_SIZE; lia|].
    apply Z.div_lt_upper_bound; unfold BANK_SIZE; lia. }
  destruct (read_loop_turn_banked fuel length lr s Hn Hb)
    as [(r & s1 & evs & _ & T & A & ->)
       |[(pre & post & r & s3 & _ & A1 & A2 & L & T & ->)
        |(pre & s3 & A & L & T & D & ->)]]; try fold a in L.
  - exists evs. split; [exact T|apply reads_in_bank_exec, A].
  - eexists. split; [exact T|].
    apply reads_in_bank_exec_app; [exact A1|].
    rewrite L, Hbank. cbn [reads_in_bank set_data_nbytes addr]. fold a.
    split; [reflexivity|apply reads_in_bank_exec, A2].
  - set (n := chunk_len hdr length (nor_dev s)) in *.
    rewrite (size_t_small hdr size_t_width (length - n)) by lia.
    assert (addr_val (addr (read_op (nor_dev s3))) = a + n) as Ea.
    { rewrite D. cbn. fold a. unfold u64, wrap. apply Z.mod_small. lia. }
    destruct (IH (length - n) (size_t hdr (lr + n)) s3) as (evs & T' & C).
    + rewrite D. exact Hb.
    + rewrite Ea. lia.
    + lia.
    + rewrite Ea. lia.
    + rewrite D in C.
      cbn [bank_write_cmd selected_bank set_selected_bank set_read_op] in C.
      fold a in C. rewrite Hbank in C.
      exists (pre ++ [EvDirmap (set_data_nbytes n (read_op (nor_dev s))) 0]
                ++ evs).
      split; [rewrite T', T, <- !app_assoc; reflexivity|].
      apply reads_in_bank_exec_app; [exact A|].
      rewrite L, Hbank.
      cbn [app reads_in_bank set_data_nbytes addr]. fold a.
      split; [reflexivity|exact C].
Qed.

(** X17.  With bank switching enabled and the range inside a 32-bit
    capacity, every bulk read of [spi_nor_read] is issued while the bank
    the device last accepted (the cached bank, where the call wrote
    none) is the bank of the read's address: the data read comes from
    the addressed window, provided the cached bank was the device's on
    entry. *)
Theorem spi_nor_read_in_selected_bank (fuel : nat)
    (offset buffer length : Z) (s : state W) :
  use_bank hdr (nor_dev s) = true ->
  0 <= offset -> 0 <= length ->
  offset + length <= size (nor_dev s) -> size (nor_dev s) < 2 ^ 32 ->
  exists evs,
    trace (final_state (spi_nor_read hdr plat fuel offset buffer length s))
      = trace s ++ evs /\
    reads_in_bank (bank_write_cmd (nor_dev s)) (selected_bank (nor_dev s)) evs.
Proof.
  intros Hb Ho Hl Hcap Hsz. unfold spi_nor_read, put_dev.
  set (s1 := Build_state _ (world s) (trace s)).
  destruct (read_loop_banks fuel length 0 s1) as (evs & T & C);
    try assumption; cbn; try lia.
  exists evs. split; assumption.
Qed.

End InRangeBanks.

End ReadBanks.

Lemma spi_nor_read_in_selected_bank_witness :
  use_bank std_headers (nor_dev two_banks) = true /\
  exists evs,
    trace (final_state
             (spi_nor_read std_headers scripted 8 0xF00000 0 0x400000
                two_banks)) = trace two_banks ++ evs /\
    reads_in_bank (bank_write_cmd (nor_dev two_banks))
                  (selected_bank (nor_dev two_banks)) evs.
Proof.
  split; [reflexivity|].
  exact (spi_nor_read_in_selected_bank std_headers scripted
           (or_introl eq_refl) 8 0xF00000 0 0x400000 two_banks
           eq_refl ltac:(lia) ltac:(lia) ltac:(cbn; lia) ltac:(cbn; lia)).
Defined.
